(** * The L1 data-availability syncer of scroll-geth (package [da_syncer])

    A shallow embedding of [calldata_blob_source.go], [da.go], [da_queue.go]
    and [da/commitV1.go], and the properties of the decode pipeline proved
    about it.

    - Unsigned 64-bit integers are [Z] with the wrap-around written out
      ([uint64]); Go's [int] is [Z] wrapped to the signed 64-bit range.
    - A Go function returning [(value, error)] returns an [outcome]; a
      run-time panic (index or slice bounds out of range) is the outcome
      [Panic].
    - Calls to the collaborators (L1 client, blob client, message database,
      blob codec) are threaded through a state that holds the collaborators'
      world and the trace of the calls made so far. *)

From Stdlib Require Import ZArith Lia Strings.Byte Sorting.Sorted.
From stdpp Require Import base list gmap strings.

Local Open Scope Z_scope.

(** ** Machine integers *)

(** [uint64] arithmetic wraps modulo [2^64]. *)
Definition uint64 (z : Z) : Z := z mod 2 ^ 64.

(** Go's [int] on the 64-bit targets the node runs on. *)
Definition int (z : Z) : Z := (z + 2 ^ 63) mod 2 ^ 64 - 2 ^ 63.

(** ** Bytes and slices *)

Definition bytes := list byte.

Definition byte_val (b : byte) : Z := Z.of_N (Byte.to_N b).

(** [len(data)] *)
Definition len {A} (data : list A) : Z := Z.of_nat (length data).

(** A Go slice is a window on a backing array: [data] holds its elements
    and [spare] the bytes that follow them in the backing array, up to the
    capacity of the slice. The slice expression [data[low:high]] is
    checked against the capacity, not the length: it panics ([None]) when
    [high] exceeds the capacity, and otherwise reads on into [spare]. *)
Definition slice {A} (data spare : list A) (low high : nat) : option (list A) :=
  if decide (low ≤ high ∧ high ≤ length data + length spare)%nat
  then Some (take (high - low) (drop low (data ++ spare)))
  else None.

(** [binary.BigEndian.Uint64(b)]: the first eight bytes of [b], most
    significant first; it panics when [b] has fewer than eight bytes. *)
Definition be_value (b : bytes) : Z :=
  fold_left (fun acc x => acc * 256 + byte_val x) b 0.

Definition BigEndian_Uint64 (b : bytes) : option Z :=
  if decide (8 ≤ length b)%nat then Some (be_value (take 8 b)) else None.

(** ** Errors and outcomes *)

Definition Hash := Z. (* common.Hash: 32 bytes, read as one number *)

(** The errors the package builds with [fmt.Errorf], one constructor per
    message, with the values the message names. [ExternalError] is an error
    handed back by a collaborator. *)
Inductive error :=
| ExternalError (what : string)
| sourceExhaustedErr
| ErrGetL1Height (e : error)
| ErrGetEvents (l1height : Z) (e : error)
| ErrUnpackCommitLog (e : error)
| ErrUnpackRevertLog (e : error)
| ErrUnpackFinalizeLog (e : error)
| ErrGetCommitBatchDa (batchIndex : Z) (e : error)
| ErrUnknownEvent (topic txHash : Hash)
| ErrTxDataTooShort (length : Z)
| ErrMethodById (id : bytes) (e : error)
| ErrAbiUnpack (txData : bytes) (e : error)
| ErrCopyArgs (e : error)
| ErrUnknownCodecVersion (version : Z)
| ErrUnpackChunks (batchIndex : Z) (e : error)
| ErrFetchBlobHash (e : error)
| ErrGetHeader (e : error)
| ErrFetchBlob (e : error)
| ErrBlobNil (batchIndex : Z) (versionedHash : Hash)
| ErrBlobCommitment
| ErrBlobHashMismatch (versionedHash blobVersionedHash : Hash)
| ErrDecodeTxsFromBlob (e : error)
| ErrDecodeBitmap (batchIndex : Z) (e : error)
| ErrReadL1Message (index : Z).

(** What a collaborator returns: [(value, nil)] or [(_, err)]. *)
Inductive result (A : Type) :=
| ROk (a : A)
| RErr (e : error).
Arguments ROk {A} a.
Arguments RErr {A} e.

(** What a function of the package does: return a value, return an error,
    panic, or still be spinning in a loop when the fuel given to the loop
    runs out. *)
Inductive outcome (A : Type) :=
| Ok (a : A)
| Err (e : error)
| Panic (msg : string)
| OutOfFuel.
Arguments Ok {A} a.
Arguments Err {A} e.
Arguments Panic {A} msg.
Arguments OutOfFuel {A}.

Definition is_Ok {A} (o : outcome A) : Prop := ∃ a, o = Ok a.

(** ** Data model ([da.go] and the types of the collaborators it holds) *)

(** [types.Log], the fields the syncer reads. *)
Record Log := {
  Topics : list Hash;
  Data : bytes;
  BlockNumber : Z;
  TxHash : Hash;
}.

(** [types.L1MessageTx]; the syncer passes messages through untouched. *)
Record L1MessageTx := {
  QueueIndex : Z;
  Gas : Z;
  Sender : Z;
  MsgData : bytes;
}.

(** A block context of a chunk; [NumL1Messages] is a [uint16]. *)
Record DABlock := {
  DABlockNumber : Z;
  NumTransactions : Z;
  NumL1Messages : Z;
}.

(** [DAChunkRawTx]: the blocks of a chunk and, per block, its raw
    transactions. *)
Record DAChunkRawTx := {
  Blocks : list DABlock;
  Transactions : list (list bytes);
}.

(** The tags of [da.go]; [CommitBatchV2] is the tag of the entries built by
    [NewCommitBatchDaV2]. *)
Inductive DAType :=
| CommitBatchV0
| CommitBatchV1
| CommitBatchV2
| RevertBatch
| FinalizeBatch.

(** [CommitBatchDaV0], [CommitBatchDaV1] and [CommitBatchDaV2] have the same
    fields. The third field is what the callers in
    [calldata_blob_source.go] pass as third argument of the constructors:
    the parent's total of popped L1 messages. *)
Record CommitBatchDa := {
  cb_DaType : DAType;
  cb_Version : Z;
  cb_BatchIndex : Z;
  cb_ParentTotalL1MessagePopped : Z;
  cb_SkippedL1MessageBitmap : bytes;
  cb_Chunks : list DAChunkRawTx;
  cb_L1Txs : list L1MessageTx;
  cb_L1BlockNumber : Z;
}.

Record RevertBatchDA := {
  rb_DaType : DAType;
  rb_BatchIndex : Z;
  rb_L1BlockNumber : Z;
}.

Record FinalizeBatchDA := {
  fb_DaType : DAType;
  fb_BatchIndex : Z;
  fb_L1BlockNumber : Z;
}.

(** The interface [DAEntry] and the structs that implement it. *)
Inductive DAEntry :=
| EntryCommit (c : CommitBatchDa)
| EntryRevert (r : RevertBatchDA)
| EntryFinalize (f : FinalizeBatchDA).

Definition DA := list DAEntry.

Definition NewCommitBatchDaV0 (version batchIndex parentTotalL1MessagePopped : Z)
    (skippedL1MessageBitmap : bytes) (chunks : list DAChunkRawTx)
    (l1Txs : list L1MessageTx) (l1BlockNumber : Z) : DAEntry :=
  EntryCommit {|
    cb_DaType := CommitBatchV0;
    cb_Version := version;
    cb_BatchIndex := batchIndex;
    cb_ParentTotalL1MessagePopped := parentTotalL1MessagePopped;
    cb_SkippedL1MessageBitmap := skippedL1MessageBitmap;
    cb_Chunks := chunks;
    cb_L1Txs := l1Txs;
    cb_L1BlockNumber := l1BlockNumber |}.

Definition NewCommitBatchDaV1 (version batchIndex parentTotalL1MessagePopped : Z)
    (skippedL1MessageBitmap : bytes) (chunks : list DAChunkRawTx)
    (l1Txs : list L1MessageTx) (l1BlockNumber : Z) : DAEntry :=
  EntryCommit {|
    cb_DaType := CommitBatchV1;
    cb_Version := version;
    cb_BatchIndex := batchIndex;
    cb_ParentTotalL1MessagePopped := parentTotalL1MessagePopped;
    cb_SkippedL1MessageBitmap := skippedL1MessageBitmap;
    cb_Chunks := chunks;
    cb_L1Txs := l1Txs;
    cb_L1BlockNumber := l1BlockNumber |}.

(** Modelled from the spec: [NewCommitBatchDaV2] is called by [decodeDAV2]
    but its declaration is not among the sources. The spec gives all
    commit entries the same fields, so it fills them as
    [NewCommitBatchDaV1] does, under its own type tag. *)
Definition NewCommitBatchDaV2 (version batchIndex parentTotalL1MessagePopped : Z)
    (skippedL1MessageBitmap : bytes) (chunks : list DAChunkRawTx)
    (l1Txs : list L1MessageTx) (l1BlockNumber : Z) : DAEntry :=
  EntryCommit {|
    cb_DaType := CommitBatchV2;
    cb_Version := version;
    cb_BatchIndex := batchIndex;
    cb_ParentTotalL1MessagePopped := parentTotalL1MessagePopped;
    cb_SkippedL1MessageBitmap := skippedL1MessageBitmap;
    cb_Chunks := chunks;
    cb_L1Txs := l1Txs;
    cb_L1BlockNumber := l1BlockNumber |}.

(** The constructors take the batch index only; [L1BlockNumber] keeps
    Go's zero value. *)
Definition NewRevertBatchDA (batchIndex : Z) : DAEntry :=
  EntryRevert {|
    rb_DaType := RevertBatch;
    rb_BatchIndex := batchIndex;
    rb_L1BlockNumber := 0 |}.

Definition NewFinalizeBatchDA (batchIndex : Z) : DAEntry :=
  EntryFinalize {|
    fb_DaType := FinalizeBatch;
    fb_BatchIndex := batchIndex;
    fb_L1BlockNumber := 0 |}.

(** The two methods of the interface. *)
Definition DAType_of (e : DAEntry) : DAType :=
  match e with
  | EntryCommit c => cb_DaType c
  | EntryRevert r => rb_DaType r
  | EntryFinalize f => fb_DaType f
  end.

Definition GetL1BlockNumber (e : DAEntry) : Z :=
  match e with
  | EntryCommit c => cb_L1BlockNumber c
  | EntryRevert r => rb_L1BlockNumber r
  | EntryFinalize f => fb_L1BlockNumber f
  end.

Definition BatchIndex_of (e : DAEntry) : Z :=
  match e with
  | EntryCommit c => cb_BatchIndex c
  | EntryRevert r => rb_BatchIndex r
  | EntryFinalize f => fb_BatchIndex f
  end.

(** ** Arguments of the two commit methods *)

(** [ParentBatchHeader] is a byte slice; [ParentBatchHeaderSpare] holds the
    bytes behind it in its backing array, up to its capacity (the ABI
    decoder hands a [bytes] argument over as a sub-slice of the call
    data, so the spare bytes are the call data that follows). *)
Record commitBatchArgs := {
  Version : Z;
  ParentBatchHeader : bytes;
  ParentBatchHeaderSpare : bytes;
  Chunks : list bytes;
  SkippedL1MessageBitmap : bytes;
}.

Record commitBatchWithBlobProofArgs := {
  bp_Version : Z;
  bp_ParentBatchHeader : bytes;
  bp_ParentBatchHeaderSpare : bytes;
  bp_Chunks : list bytes;
  bp_SkippedL1MessageBitmap : bytes;
  bp_BlobDataProof : bytes;
}.

(** [getBatchTotalL1MessagePopped]: [binary.BigEndian.Uint64(data[17:25])],
    on the slice [data] with the bytes [spare] behind it. There is no
    length check; [None] is the panic of the slice expression. *)
Definition getBatchTotalL1MessagePopped (data spare : bytes) : option Z :=
  match slice data spare 17 25 with
  | Some field => BigEndian_Uint64 field
  | None => None
  end.

(** ** Collaborators *)

Definition Blob := bytes.       (* kzg4844.Blob *)
Definition Commitment := bytes. (* kzg4844.Commitment *)

(** [types.Header], the field [commitV1.go] reads. *)
Record Header := { Time : Z }.

(** The da-codec and kzg4844 libraries: chunk and blob decoders, the skip
    bitmap, the blob commitment and its versioned hash. [DecodeTxsFromBlob]
    fills the transactions of the chunks it is given in place; here it
    returns the filled chunks. *)
Class Codec := {
  Bitmap : Type;
  codecv0_DecodeDAChunksRawTx : list bytes → result (list DAChunkRawTx);
  codecv1_DecodeDAChunksRawTx : list bytes → result (list DAChunkRawTx);
  codecv2_DecodeDAChunksRawTx : list bytes → result (list DAChunkRawTx);
  codecv1_DecodeTxsFromBlob : Blob → list DAChunkRawTx → result (list DAChunkRawTx);
  codecv2_DecodeTxsFromBlob : Blob → list DAChunkRawTx → result (list DAChunkRawTx);
  encoding_DecodeBitmap : bytes → Z → result Bitmap;
  encoding_IsL1MessageSkipped : Bitmap → Z → bool;
  kzg4844_BlobToCommitment : Blob → result Commitment;
  kzg4844_CalcBlobHashV1 : Commitment → Hash;
}.

(** The contract ABI ([abi.ABI]) with the operations the syncer uses:
    method lookup by selector, unpacking of a method's inputs, copying the
    unpacked values into an argument struct, and [UnpackLog], which yields
    the [BatchIndex] of the event (a [big.Int]). *)
Record ABI := {
  Values : Type;
  Method : Type;
  Method_Name : Method → string;
  MethodById : bytes → result Method;
  Inputs_Unpack : Method → bytes → result Values;
  Inputs_Copy_commitBatchArgs : Method → Values → result commitBatchArgs;
  Inputs_Copy_commitBatchWithBlobProofArgs :
    Method → Values → result commitBatchWithBlobProofArgs;
  UnpackLog : string → Log → result Z;
  Events_ID : string → Hash;
}.

(** The calls that leave the process, as they appear in the trace. *)
Inductive Event :=
| EvGetFinalizedBlockNumber
| EvFetchRollupEventsInRange (from to : Z)
| EvFetchTxData (vLog : Log)
| EvFetchTxBlobHash (vLog : Log)
| EvGetHeaderByNumber (number : Z)
| EvGetBlobByVersionedHash (versionedHash : Hash)
| EvGetBlobByVersionedHashAndBlockTime (versionedHash : Hash) (time : Z)
| EvReadL1Message (index : Z)
| EvDecodeTxsFromBlob (blob : Blob)
| EvOpenDataSource (l1height : Z).

Section Syncer.

Context {World : Type} {codec_lib : Codec}.

(** The L1 client and the blob client answer from the world and may change
    it. [getFinalizedBlockNumber] yields a [big.Int]. A blob client may
    return a nil blob without an error ([None]). *)
Record L1Client := {
  getFinalizedBlockNumber : World → result Z * World;
  fetchRollupEventsInRange : Z → Z → World → result (list Log) * World;
  fetchTxData : Log → World → result bytes * World;
  fetchTxBlobHash : Log → World → result Hash * World;
  GetHeaderByNumber : Z → World → result Header * World;
}.

Record BlobClient := {
  GetBlobByVersionedHash : Hash → World → result Blob * World;
  GetBlobByVersionedHashAndBlockTime :
    Hash → Z → World → result (option Blob) * World;
}.

Record State := {
  world : World;
  trace : list Event;
}.

Definition M (A : Type) : Type := State → outcome A * State.

#[global] Instance M_ret : MRet M := λ A a s, (Ok a, s).

#[global] Instance M_bind : MBind M := λ A B f m s,
  match m s with
  | (Ok a, s') => f a s'
  | (Err e, s') => (Err e, s')
  | (Panic msg, s') => (Panic msg, s')
  | (OutOfFuel, s') => (OutOfFuel, s')
  end.

Definition fail {A} (e : error) : M A := λ s, (Err e, s).
Definition panic {A} (msg : string) : M A := λ s, (Panic msg, s).
Definition out_of_fuel {A} : M A := λ s, (OutOfFuel, s).

Definition of_result {A} (r : result A) : outcome A :=
  match r with
  | ROk a => Ok a
  | RErr e => Err e
  end.

(** A pure library call. *)
Definition lift {A} (r : result A) : M A := λ s, (of_result r, s).

(** A call to a collaborator: it answers from the world and is recorded. *)
Definition call {A} (ev : Event) (op : World → result A * World) : M A :=
  λ s, let (r, w) := op (world s) in
       (of_result r, {| world := w; trace := trace s ++ [ev] |}).

(** [fmt.Errorf("...: %w", err)] around a failing call. *)
Definition wrap_err {A} (f : error → error) (m : M A) : M A :=
  λ s, match m s with
       | (Err e, s') => (Err (f e), s')
       | r => r
       end.

(** ** [CalldataBlobSource] *)

Definition callDataBlobSourceFetchBlockRange : Z := 500.

Record CalldataBlobSource := {
  l1Client : L1Client;
  blobClient : BlobClient;
  l1height : Z;
  scrollChainABI : ABI;
  l1CommitBatchEventSignature : Hash;
  l1RevertBatchEventSignature : Hash;
  l1FinalizeBatchEventSignature : Hash;
  db : gmap Z L1MessageTx;
}.

Definition NewCalldataBlobSource (getAbi : result ABI) (l1height : Z)
    (l1Client : L1Client) (blobClient : BlobClient) (db : gmap Z L1MessageTx)
    : outcome CalldataBlobSource :=
  match getAbi with
  | RErr e => Err e
  | ROk scrollChainABI =>
      Ok {| l1Client := l1Client;
            blobClient := blobClient;
            l1height := l1height;
            scrollChainABI := scrollChainABI;
            l1CommitBatchEventSignature := Events_ID scrollChainABI "CommitBatch";
            l1RevertBatchEventSignature := Events_ID scrollChainABI "RevertBatch";
            l1FinalizeBatchEventSignature := Events_ID scrollChainABI "FinalizeBatch";
            db := db |}
  end.

Definition L1Height (ds : CalldataBlobSource) : Z := l1height ds.

(** [rawdb.ReadL1Message(ds.db, index)]: [None] is the nil message. *)
Definition ReadL1Message (ds : CalldataBlobSource) (index : Z)
    : M (option L1MessageTx) :=
  λ s, (Ok (db ds !! index),
        {| world := world s; trace := trace s ++ [EvReadL1Message index] |}).

(** The sum of [int(block.NumL1Messages)] over the blocks of all chunks. *)
Definition totalL1MessagePopped (chunks : list DAChunkRawTx) : Z :=
  fold_left
    (λ total chunk,
       fold_left (λ total block, int (total + NumL1Messages block))
                 (Blocks chunk) total)
    chunks 0.

(** The message walk of [decodeDAV0]: [n] iterations are left; every
    iteration tests the bit of the current slot once and moves one slot
    on. *)
Fixpoint walkV0 (ds : CalldataBlobSource) (skippedBitmap : Bitmap)
    (parentTotalL1MessagePopped : Z) (n : nat) (currentIndex : Z)
    (l1Txs : list L1MessageTx) : M (list L1MessageTx) :=
  match n with
  | O => mret l1Txs
  | S n' =>
      if encoding_IsL1MessageSkipped skippedBitmap
           (uint64 (currentIndex - parentTotalL1MessagePopped))
      then walkV0 ds skippedBitmap parentTotalL1MessagePopped n'
             (uint64 (currentIndex + 1)) l1Txs
      else
        l1Tx ← ReadL1Message ds currentIndex;
        match l1Tx with
        | None => fail (ErrReadL1Message currentIndex)
        | Some l1Tx =>
            walkV0 ds skippedBitmap parentTotalL1MessagePopped n'
              (uint64 (currentIndex + 1)) (l1Txs ++ [l1Tx])
        end
  end.

(** The inner loop of [decodeDAV1] and [decodeDAV2]:
    [for IsL1MessageSkipped(...) { currentIndex++ }]. [None] when the fuel
    runs out before a clear bit is found. *)
Fixpoint skipSet (skippedBitmap : Bitmap) (parentTotalL1MessagePopped : Z)
    (fuel : nat) (currentIndex : Z) : option Z :=
  match fuel with
  | O => None
  | S fuel' =>
      if encoding_IsL1MessageSkipped skippedBitmap
           (uint64 (currentIndex - parentTotalL1MessagePopped))
      then skipSet skippedBitmap parentTotalL1MessagePopped fuel'
             (uint64 (currentIndex + 1))
      else Some currentIndex
  end.

(** The message walk of [decodeDAV1] and [decodeDAV2]: every iteration
    first runs over all set bits, then reads one message. *)
Fixpoint walkV1 (ds : CalldataBlobSource) (skippedBitmap : Bitmap)
    (parentTotalL1MessagePopped : Z) (fuel : nat) (n : nat) (currentIndex : Z)
    (l1Txs : list L1MessageTx) : M (list L1MessageTx) :=
  match n with
  | O => mret l1Txs
  | S n' =>
      match skipSet skippedBitmap parentTotalL1MessagePopped fuel currentIndex with
      | None => out_of_fuel
      | Some currentIndex =>
          l1Tx ← ReadL1Message ds currentIndex;
          match l1Tx with
          | None => fail (ErrReadL1Message currentIndex)
          | Some l1Tx =>
              walkV1 ds skippedBitmap parentTotalL1MessagePopped fuel n'
                (uint64 (currentIndex + 1)) (l1Txs ++ [l1Tx])
          end
      end
  end.

Definition read_parent_total (args : commitBatchArgs) : M Z :=
  match getBatchTotalL1MessagePopped (ParentBatchHeader args)
          (ParentBatchHeaderSpare args) with
  | Some v => mret v
  | None => panic "slice bounds out of range"
  end.

Definition decodeDAV0 (ds : CalldataBlobSource) (batchIndex : Z) (vLog : Log)
    (args : commitBatchArgs) : M DAEntry :=
  chunks ← wrap_err (ErrUnpackChunks batchIndex)
             (lift (codecv0_DecodeDAChunksRawTx (Chunks args)));
  parentTotalL1MessagePopped ← read_parent_total args;
  let total := totalL1MessagePopped chunks in
  skippedBitmap ← wrap_err (ErrDecodeBitmap batchIndex)
                    (lift (encoding_DecodeBitmap (SkippedL1MessageBitmap args) total));
  l1Txs ← walkV0 ds skippedBitmap parentTotalL1MessagePopped (Z.to_nat total)
            parentTotalL1MessagePopped [];
  mret (NewCommitBatchDaV0 (Version args) batchIndex parentTotalL1MessagePopped
          (SkippedL1MessageBitmap args) chunks l1Txs (BlockNumber vLog)).

(** The blob steps shared by [decodeDAV1] and [decodeDAV2]: fetch the
    versioned hash of the transaction and the blob, recompute the blob's
    versioned hash and compare. *)
Definition fetch_verified_blob (ds : CalldataBlobSource) (vLog : Log) : M Blob :=
  versionedHash ← wrap_err ErrFetchBlobHash
                    (call (EvFetchTxBlobHash vLog) (fetchTxBlobHash (l1Client ds) vLog));
  blob ← wrap_err ErrFetchBlob
           (call (EvGetBlobByVersionedHash versionedHash)
                 (GetBlobByVersionedHash (blobClient ds) versionedHash));
  c ← wrap_err (λ _, ErrBlobCommitment) (lift (kzg4844_BlobToCommitment blob));
  let blobVersionedHash := kzg4844_CalcBlobHashV1 c in
  if decide (blobVersionedHash ≠ versionedHash)
  then fail (ErrBlobHashMismatch versionedHash blobVersionedHash)
  else mret blob.

Definition DecodeTxsFromBlob
    (decode : Blob → list DAChunkRawTx → result (list DAChunkRawTx))
    (blob : Blob) (chunks : list DAChunkRawTx) : M (list DAChunkRawTx) :=
  λ s, (of_result (decode blob chunks),
        {| world := world s; trace := trace s ++ [EvDecodeTxsFromBlob blob] |}).

Definition decodeDAV1 (fuel : nat) (ds : CalldataBlobSource) (batchIndex : Z)
    (vLog : Log) (args : commitBatchArgs) : M DAEntry :=
  chunks ← wrap_err (ErrUnpackChunks batchIndex)
             (lift (codecv1_DecodeDAChunksRawTx (Chunks args)));
  blob ← fetch_verified_blob ds vLog;
  chunks ← wrap_err ErrDecodeTxsFromBlob
             (DecodeTxsFromBlob codecv1_DecodeTxsFromBlob blob chunks);
  parentTotalL1MessagePopped ← read_parent_total args;
  let total := totalL1MessagePopped chunks in
  skippedBitmap ← wrap_err (ErrDecodeBitmap batchIndex)
                    (lift (encoding_DecodeBitmap (SkippedL1MessageBitmap args) total));
  l1Txs ← walkV1 ds skippedBitmap parentTotalL1MessagePopped fuel (Z.to_nat total)
            parentTotalL1MessagePopped [];
  mret (NewCommitBatchDaV1 (Version args) batchIndex parentTotalL1MessagePopped
          (SkippedL1MessageBitmap args) chunks l1Txs (BlockNumber vLog)).

Definition decodeDAV2 (fuel : nat) (ds : CalldataBlobSource) (batchIndex : Z)
    (vLog : Log) (args : commitBatchArgs) : M DAEntry :=
  chunks ← wrap_err (ErrUnpackChunks batchIndex)
             (lift (codecv2_DecodeDAChunksRawTx (Chunks args)));
  blob ← fetch_verified_blob ds vLog;
  chunks ← wrap_err ErrDecodeTxsFromBlob
             (DecodeTxsFromBlob codecv2_DecodeTxsFromBlob blob chunks);
  parentTotalL1MessagePopped ← read_parent_total args;
  let total := totalL1MessagePopped chunks in
  skippedBitmap ← wrap_err (ErrDecodeBitmap batchIndex)
                    (lift (encoding_DecodeBitmap (SkippedL1MessageBitmap args) total));
  l1Txs ← walkV1 ds skippedBitmap parentTotalL1MessagePopped fuel (Z.to_nat total)
            parentTotalL1MessagePopped [];
  mret (NewCommitBatchDaV2 (Version args) batchIndex parentTotalL1MessagePopped
          (SkippedL1MessageBitmap args) chunks l1Txs (BlockNumber vLog)).

Definition methodIDLength : Z := 4.

(** [getCommitBatchDa]. The first branch is the genesis batch. A call whose
    method is not [commitBatch] is taken to be [commitBatchWithBlobProof]:
    its arguments are copied into the shape of [commitBatchArgs], the blob
    proof is dropped, and it is decoded by [decodeDAV2] whatever its
    version field says. *)
Definition getCommitBatchDa (fuel : nat) (ds : CalldataBlobSource)
    (batchIndex : Z) (vLog : Log) : M DAEntry :=
  if decide (batchIndex = 0)
  then mret (NewCommitBatchDaV0 0 batchIndex 0 [] [] [] 0)
  else
    txData ← call (EvFetchTxData vLog) (fetchTxData (l1Client ds) vLog);
    if decide (len txData < methodIDLength)
    then fail (ErrTxDataTooShort (len txData))
    else
      let abi := scrollChainABI ds in
      method ← wrap_err (ErrMethodById (take 4 txData))
                 (lift (MethodById abi (take 4 txData)));
      values ← wrap_err (ErrAbiUnpack txData)
                 (lift (Inputs_Unpack abi method (drop 4 txData)));
      if decide (Method_Name abi method = "commitBatch")
      then
        args ← wrap_err ErrCopyArgs
                 (lift (Inputs_Copy_commitBatchArgs abi method values));
        match Version args with
        | 0 => decodeDAV0 ds batchIndex vLog args
        | 1 => decodeDAV1 fuel ds batchIndex vLog args
        | 2 => decodeDAV2 fuel ds batchIndex vLog args
        | _ => fail (ErrUnknownCodecVersion (Version args))
        end
      else
        args ← wrap_err ErrCopyArgs
                 (lift (Inputs_Copy_commitBatchWithBlobProofArgs abi method values));
        let usedArgs := {|
          Version := bp_Version args;
          ParentBatchHeader := bp_ParentBatchHeader args;
          ParentBatchHeaderSpare := bp_ParentBatchHeaderSpare args;
          Chunks := bp_Chunks args;
          SkippedL1MessageBitmap := bp_SkippedL1MessageBitmap args |} in
        decodeDAV2 fuel ds batchIndex vLog usedArgs.

(** The loop of [processLogsToDA]; [da] is the slice built so far. The
    [switch] compares [vLog.Topics[0]] with the three signatures in the
    order of its cases; a log without topics makes the index expression
    panic. *)
Fixpoint processLogs (fuel : nat) (ds : CalldataBlobSource) (logs : list Log)
    (da : DA) : M DA :=
  match logs with
  | [] => mret da
  | vLog :: logs' =>
      match Topics vLog with
      | [] => panic "index out of range"
      | topic :: _ =>
          let abi := scrollChainABI ds in
          if decide (topic = l1CommitBatchEventSignature ds) then
            event ← wrap_err ErrUnpackCommitLog (lift (UnpackLog abi "CommitBatch" vLog));
            let batchIndex := uint64 event in
            daEntry ← wrap_err (ErrGetCommitBatchDa batchIndex)
                        (getCommitBatchDa fuel ds batchIndex vLog);
            processLogs fuel ds logs' (da ++ [daEntry])
          else if decide (topic = l1RevertBatchEventSignature ds) then
            event ← wrap_err ErrUnpackRevertLog (lift (UnpackLog abi "RevertBatch" vLog));
            let batchIndex := uint64 event in
            processLogs fuel ds logs' (da ++ [NewRevertBatchDA batchIndex])
          else if decide (topic = l1FinalizeBatchEventSignature ds) then
            event ← wrap_err ErrUnpackFinalizeLog (lift (UnpackLog abi "FinalizeBatch" vLog));
            let batchIndex := uint64 event in
            processLogs fuel ds logs' (da ++ [NewFinalizeBatchDA batchIndex])
          else fail (ErrUnknownEvent topic (TxHash vLog))
      end
  end.

Definition processLogsToDA (fuel : nat) (ds : CalldataBlobSource)
    (logs : list Log) : M DA :=
  processLogs fuel ds logs [].

(** [ds.l1height = v] *)
Definition set_l1height (ds : CalldataBlobSource) (v : Z) : CalldataBlobSource :=
  {| l1Client := l1Client ds;
     blobClient := blobClient ds;
     l1height := v;
     scrollChainABI := scrollChainABI ds;
     l1CommitBatchEventSignature := l1CommitBatchEventSignature ds;
     l1RevertBatchEventSignature := l1RevertBatchEventSignature ds;
     l1FinalizeBatchEventSignature := l1FinalizeBatchEventSignature ds;
     db := db ds |}.

(** The upper end of the range of a step, from the cursor and the
    finalized height (lines 58 and 63-65 of [NextData]). *)
Definition rangeEnd (l1height l1Finalized : Z) : Z :=
  let to := uint64 (l1height + callDataBlobSourceFetchBlockRange) in
  if decide (to > uint64 l1Finalized) then uint64 l1Finalized else to.

(** [NextData] changes the receiver; it returns the source as it is after
    the call next to the outcome. *)
Definition NextData (fuel : nat) (ds : CalldataBlobSource)
    : State → outcome DA * CalldataBlobSource * State :=
  λ s,
  match call EvGetFinalizedBlockNumber (getFinalizedBlockNumber (l1Client ds)) s with
  | (Err e, s) => (Err (ErrGetL1Height e), ds, s)
  | (Panic msg, s) => (Panic msg, ds, s)
  | (OutOfFuel, s) => (OutOfFuel, ds, s)
  | (Ok l1Finalized, s) =>
      let to := rangeEnd (l1height ds) l1Finalized in
      if decide (l1height ds > to) then (Err sourceExhaustedErr, ds, s)
      else
        match call (EvFetchRollupEventsInRange (l1height ds) to)
                (fetchRollupEventsInRange (l1Client ds) (l1height ds) to) s with
        | (Err e, s) => (Err (ErrGetEvents (l1height ds) e), ds, s)
        | (Panic msg, s) => (Panic msg, ds, s)
        | (OutOfFuel, s) => (OutOfFuel, ds, s)
        | (Ok logs, s) =>
            match processLogsToDA fuel ds logs s with
            | (Ok da, s) => (Ok da, set_l1height ds (uint64 (to + 1)), s)
            | (r, s) => (r, ds, s)
            end
        end
  end.

(** ** [DAQueue] ([da_queue.go]) *)

(** The interface [DataSource]. A source that fails returns a nil [DA]
    with its error. *)
Class DataSource (Src : Type) := {
  DataSource_NextData : Src → State → outcome DA * Src * State;
  DataSource_L1Height : Src → Z;
}.

Definition CalldataBlobSource_DataSource (fuel : nat)
    : DataSource CalldataBlobSource := {|
  DataSource_NextData := NextData fuel;
  DataSource_L1Height := L1Height |}.

Section Queue.

Context {Src : Type} {source_impl : DataSource Src}.

Record DataSourceFactory := {
  OpenDataSource : Z → World → result Src * World;
}.

Record DAQueue := {
  dq_l1height : Z;
  dataSourceFactory : DataSourceFactory;
  dataSource : option Src;
  dq_da : DA;
}.

Definition NewDAQueue (l1height : Z) (dataSourceFactory : DataSourceFactory)
    : DAQueue :=
  {| dq_l1height := l1height;
     dataSourceFactory := dataSourceFactory;
     dataSource := None;
     dq_da := [] |}.

(** [getNextData] calls itself when the source is exhausted (line 143,
    [return dq.getNextData(ctx)]). Go does not eliminate tail calls: the
    activation that makes the call stays on the stack until the callee
    returns. The last component of the result counts the activations of
    [getNextData] on the stack at the deepest point of the call. [fuel]
    bounds the number of nested calls followed. *)
Fixpoint getNextData (fuel : nat) (dq : DAQueue) (s : State)
    : outcome () * DAQueue * State * nat :=
  match fuel with
  | O => (OutOfFuel, dq, s, O)
  | S fuel' =>
      let opened :=
        match dataSource dq with
        | Some src => (Ok src, s)
        | None =>
            call (EvOpenDataSource (dq_l1height dq))
                 (OpenDataSource (dataSourceFactory dq) (dq_l1height dq)) s
        end in
      match opened with
      | (Err e, s) => (Err e, dq, s, 1%nat)
      | (Panic msg, s) => (Panic msg, dq, s, 1%nat)
      | (OutOfFuel, s) => (OutOfFuel, dq, s, 1%nat)
      | (Ok src, s) =>
          let '(r, src, s) := DataSource_NextData src s in
          match r with
          | Ok da =>
              (Ok (),
               {| dq_l1height := dq_l1height dq;
                  dataSourceFactory := dataSourceFactory dq;
                  dataSource := Some src;
                  dq_da := da |}, s, 1%nat)
          | Err sourceExhaustedErr =>
              let dq := {| dq_l1height := DataSource_L1Height src;
                           dataSourceFactory := dataSourceFactory dq;
                           dataSource := None;
                           dq_da := [] |} in
              let '(r, dq, s, frames) := getNextData fuel' dq s in
              (r, dq, s, S frames)
          | Err e =>
              (Err e,
               {| dq_l1height := dq_l1height dq;
                  dataSourceFactory := dataSourceFactory dq;
                  dataSource := Some src;
                  dq_da := [] |}, s, 1%nat)
          | Panic msg => (Panic msg, dq, s, 1%nat)
          | OutOfFuel => (OutOfFuel, dq, s, 1%nat)
          end
      end
  end.

(** [NextDA]: refill while the buffer is empty, then hand out its first
    entry. [fuel] bounds the iterations of the loop and the nested calls
    of each refill. *)
Fixpoint NextDA (fuel : nat) (dq : DAQueue) (s : State)
    : outcome DAEntry * DAQueue * State :=
  match dq_da dq with
  | daEntry :: rest =>
      (Ok daEntry,
       {| dq_l1height := dq_l1height dq;
          dataSourceFactory := dataSourceFactory dq;
          dataSource := dataSource dq;
          dq_da := rest |}, s)
  | [] =>
      match fuel with
      | O => (OutOfFuel, dq, s)
      | S fuel' =>
          match getNextData fuel dq s with
          | (Ok _, dq, s, _) => NextDA fuel' dq s
          | (Err e, dq, s, _) => (Err e, dq, s)
          | (Panic msg, dq, s, _) => (Panic msg, dq, s)
          | (OutOfFuel, dq, s, _) => (OutOfFuel, dq, s)
          end
      end
  end.

End Queue.

End Syncer.

(** ** Package [da] ([da/commitV1.go]) *)

Module da.
Section CommitV1.

Context {World : Type} `{Codec}.

(** [CommitBatchDAV0] and [NewCommitBatchDAV0WithChunks], which reads the
    L1 messages of the batch, are declared in another file of the
    package; they are taken as given. *)
Context {CommitBatchDAV0 : Type}.
Variable NewCommitBatchDAV0WithChunks :
  gmap Z L1MessageTx → Z → Z → bytes → list DAChunkRawTx → bytes → Z →
  M (World := World) CommitBatchDAV0.

(** [CommitBatchDAV1] embeds a [*CommitBatchDAV0]. *)
Record CommitBatchDAV1 := {
  v0 : CommitBatchDAV0;
}.

Definition NewCommitBatchDAV1WithBlobDecodeFunc (db : gmap Z L1MessageTx)
    (l1Client : L1Client) (blobClient : BlobClient) (vLog : Log)
    (version batchIndex : Z) (parentBatchHeader : bytes) (chunks : list bytes)
    (skippedL1MessageBitmap : bytes)
    (decodeTxsFromBlobFunc : Blob → list DAChunkRawTx → result (list DAChunkRawTx))
    : M CommitBatchDAV1 :=
  decodedChunks ← wrap_err (ErrUnpackChunks batchIndex)
                    (lift (codecv1_DecodeDAChunksRawTx chunks));
  versionedHash ← wrap_err ErrFetchBlobHash
                    (call (EvFetchTxBlobHash vLog) (fetchTxBlobHash l1Client vLog));
  header ← wrap_err ErrGetHeader
             (call (EvGetHeaderByNumber (BlockNumber vLog))
                   (GetHeaderByNumber l1Client (BlockNumber vLog)));
  blob ← wrap_err ErrFetchBlob
           (call (EvGetBlobByVersionedHashAndBlockTime versionedHash (Time header))
                 (GetBlobByVersionedHashAndBlockTime blobClient versionedHash
                    (Time header)));
  match blob with
  | None => fail (ErrBlobNil batchIndex versionedHash)
  | Some blob =>
      c ← wrap_err (λ _, ErrBlobCommitment) (lift (kzg4844_BlobToCommitment blob));
      let blobVersionedHash := kzg4844_CalcBlobHashV1 c in
      if decide (blobVersionedHash ≠ versionedHash)
      then fail (ErrBlobHashMismatch versionedHash blobVersionedHash)
      else
        decodedChunks ← wrap_err ErrDecodeTxsFromBlob
                          (DecodeTxsFromBlob decodeTxsFromBlobFunc blob decodedChunks);
        v0 ← NewCommitBatchDAV0WithChunks db version batchIndex parentBatchHeader
               decodedChunks skippedL1MessageBitmap (BlockNumber vLog);
        mret {| v0 := v0 |}
  end.

Definition NewCommitBatchDAV1 (db : gmap Z L1MessageTx)
    (l1Client : L1Client) (blobClient : BlobClient) (vLog : Log)
    (version batchIndex : Z) (parentBatchHeader : bytes) (chunks : list bytes)
    (skippedL1MessageBitmap : bytes) : M CommitBatchDAV1 :=
  NewCommitBatchDAV1WithBlobDecodeFunc db l1Client blobClient vLog version
    batchIndex parentBatchHeader chunks skippedL1MessageBitmap
    codecv1_DecodeTxsFromBlob.

End CommitV1.
End da.

(** ** A small concrete world

    Collaborators simple enough to run the syncer on by evaluation. *)

Module Fixture.

(** The eight bits of a byte, least significant first. *)
Definition byte_bits (b : byte) : list bool :=
  map (λ k, N.testbit (Byte.to_N b) k) [0; 1; 2; 3; 4; 5; 6; 7]%N.

Definition decode_chunk (chunk : bytes) : DAChunkRawTx :=
  {| Blocks := map (λ b, {| DABlockNumber := 0; NumTransactions := 0;
                            NumL1Messages := byte_val b |}) chunk;
     Transactions := [] |}.

Definition fill_from_blob (blob : Blob) (chunk : DAChunkRawTx) : DAChunkRawTx :=
  {| Blocks := Blocks chunk; Transactions := [[blob]] |}.

(** Modelled from the spec: the da-codec and kzg4844 libraries are not among
    the sources. The skip bitmap has one bit per message slot, bit [i]
    marking slot [i] as skipped (bit [i mod 8] of byte [i / 8] here); a
    bitmap with fewer bits than slots is corrupt, and a slot beyond the
    bitmap is not skipped. A chunk is a list of blocks, one byte each,
    giving the block's number of L1 messages; decoding the transactions
    from a blob fills them into the chunks and keeps the blocks. The
    commitment of a blob is the blob and its hash is the number its bytes
    spell. *)
Definition codec : Codec := {|
  Bitmap := list bool;
  codecv0_DecodeDAChunksRawTx := λ chunks, ROk (map decode_chunk chunks);
  codecv1_DecodeDAChunksRawTx := λ chunks, ROk (map decode_chunk chunks);
  codecv2_DecodeDAChunksRawTx := λ chunks, ROk (map decode_chunk chunks);
  codecv1_DecodeTxsFromBlob := λ blob chunks, ROk (map (fill_from_blob blob) chunks);
  codecv2_DecodeTxsFromBlob := λ blob chunks, ROk (map (fill_from_blob blob) chunks);
  encoding_DecodeBitmap := λ bitmap total,
    let bits := flat_map byte_bits bitmap in
    if decide (len bits < total)
    then RErr (ExternalError "skippedL1MessageBitmap length is too small")
    else ROk bits;
  encoding_IsL1MessageSkipped := λ bits index, nth (Z.to_nat index) bits false;
  kzg4844_BlobToCommitment := λ blob, ROk blob;
  kzg4844_CalcBlobHashV1 := be_value;
|}.

(** A contract ABI with the two commit methods and the three events. The
    call data after the selector is: the version, the length of the parent
    batch header, the header, one byte of skip bitmap, and one chunk. The
    batch index of an event is its second topic. *)
Definition unpack_inputs (data : bytes) : result commitBatchWithBlobProofArgs :=
  match data with
  | version :: hlen :: rest =>
      let h := Z.to_nat (byte_val hlen) in
      match drop h rest with
      | bitmap :: chunk =>
          ROk {| bp_Version := byte_val version;
                 bp_ParentBatchHeader := take h rest;
                 bp_ParentBatchHeaderSpare := drop h rest;
                 bp_Chunks := [chunk];
                 bp_SkippedL1MessageBitmap := [bitmap];
                 bp_BlobDataProof := [] |}
      | [] => RErr (ExternalError "abi: cannot unmarshal")
      end
  | _ => RErr (ExternalError "abi: cannot unmarshal")
  end.

Definition abi : ABI := {|
  Values := commitBatchWithBlobProofArgs;
  Method := bool;
  Method_Name := λ withProof : bool,
    if withProof then "commitBatchWithBlobProof" else "commitBatch";
  MethodById := λ id,
    match id with
    | [x01; x00; x00; x00] => ROk false
    | [x02; x00; x00; x00] => ROk true
    | _ => RErr (ExternalError "no method with id")
    end;
  Inputs_Unpack := λ _ data, unpack_inputs data;
  Inputs_Copy_commitBatchArgs := λ _ values,
    ROk {| Version := bp_Version values;
           ParentBatchHeader := bp_ParentBatchHeader values;
           ParentBatchHeaderSpare := bp_ParentBatchHeaderSpare values;
           Chunks := bp_Chunks values;
           SkippedL1MessageBitmap := bp_SkippedL1MessageBitmap values |};
  Inputs_Copy_commitBatchWithBlobProofArgs := λ _ values, ROk values;
  UnpackLog := λ _ vLog,
    match Topics vLog with
    | _ :: batchIndex :: _ => ROk batchIndex
    | _ => RErr (ExternalError "abi: missing indexed topic")
    end;
  Events_ID := λ name,
    if decide (name = "CommitBatch") then 101
    else if decide (name = "RevertBatch") then 102
    else if decide (name = "FinalizeBatch") then 103
    else 0;
|}.

(** The world is the number of finalized-height queries answered so far.
    The chain answers the [n]-th query with [finalizedAt n], returns the
    logs [logsIn from to], carries the call data of a transaction in the
    log's data, and gives a blob transaction the versioned hash [TxHash]. *)
Definition l1 (finalizedAt : nat → Z) (logsIn : Z → Z → list Log)
    : L1Client (World := nat) := {|
  getFinalizedBlockNumber := λ w, (ROk (finalizedAt w), S w);
  fetchRollupEventsInRange := λ from to w, (ROk (logsIn from to), w);
  fetchTxData := λ vLog w, (ROk (Data vLog), w);
  fetchTxBlobHash := λ vLog w, (ROk (TxHash vLog), w);
  GetHeaderByNumber := λ number w, (ROk {| Time := 12 * number |}, w);
|}.

Definition blobs_of (blobs : gmap Z Blob) : BlobClient (World := nat) := {|
  GetBlobByVersionedHash := λ h w,
    (match blobs !! h with
     | Some blob => ROk blob
     | None => RErr (ExternalError "blob not found")
     end, w);
  GetBlobByVersionedHashAndBlockTime := λ h _ w, (ROk (blobs !! h), w);
|}.

Definition source (l1height : Z) (finalizedAt : nat → Z)
    (logsIn : Z → Z → list Log) (blobs : gmap Z Blob)
    (db : gmap Z L1MessageTx) : CalldataBlobSource (World := nat) :=
  {| l1Client := l1 finalizedAt logsIn;
     blobClient := blobs_of blobs;
     l1height := l1height;
     scrollChainABI := abi;
     l1CommitBatchEventSignature := Events_ID abi "CommitBatch";
     l1RevertBatchEventSignature := Events_ID abi "RevertBatch";
     l1FinalizeBatchEventSignature := Events_ID abi "FinalizeBatch";
     db := db |}.

Definition start : State (World := nat) := {| world := O; trace := [] |}.

(** A parent batch header of 25 bytes whose field at offset 17 holds 10. *)
Definition header10 : bytes :=
  repeat x00 17 ++ [x00; x00; x00; x00; x00; x00; x00; x0a].

Definition message (index : Z) : L1MessageTx :=
  {| QueueIndex := index; Gas := 21000; Sender := 1; MsgData := [] |}.

Definition messages : gmap Z L1MessageTx :=
  {[ 10 := message 10; 11 := message 11; 12 := message 12 ]}.

(** Arguments of a batch with one chunk of one block that pops two L1
    messages; the bitmap marks slot 0 as skipped. Behind the header lies
    the rest of the call data. *)
Definition args (version : Z) : commitBatchArgs :=
  {| Version := version;
     ParentBatchHeader := header10;
     ParentBatchHeaderSpare := [x01; x02];
     Chunks := [[x02]];
     SkippedL1MessageBitmap := [x01] |}.

(** The call data of that batch, for either method. *)
Definition calldata (selector version : byte) : bytes :=
  [selector; x00; x00; x00] ++ [version; x19] ++ header10 ++ [x01; x02].

Definition commitLog (batchIndex : Z) (data : bytes) (block txHash : Z) : Log :=
  {| Topics := [101; batchIndex]; Data := data;
     BlockNumber := block; TxHash := txHash |}.

Definition revertLog (batchIndex block : Z) : Log :=
  {| Topics := [102; batchIndex]; Data := []; BlockNumber := block; TxHash := 0 |}.

Definition finalizeLog (batchIndex block : Z) : Log :=
  {| Topics := [103; batchIndex]; Data := []; BlockNumber := block; TxHash := 0 |}.

(** The blob [7] is stored under its hash 7; under hash 8 the store holds
    a blob that does not hash to 8. *)
Definition blobs : gmap Z Blob := {[ 7 := [x07]; 8 := [x09] ]}.

Definition quiet : CalldataBlobSource (World := nat) :=
  source 1 (λ _, 1000) (λ _ _, []) blobs messages.

(** A commit of the genesis batch, a commit of batch 5 by a version-0
    call, a revert and a finalize, in this order. *)
Definition interleaved : list Log :=
  [commitLog 0 [] 3 1;
   revertLog 4 5;
   commitLog 5 (calldata x01 x00) 6 7;
   finalizeLog 3 8].

Definition busy : CalldataBlobSource (World := nat) :=
  source 0 (λ _, 1000) (λ _ _, interleaved) blobs messages.

(** A chain whose finalized height stays at 0 for the first [k] queries
    and is 1000 from then on, a factory that opens sources on it, and a
    queue that starts at height 1. *)
Definition stalled (k : nat) : nat → Z :=
  λ n, if (n <? k)%nat then 0 else 1000.

Definition factory (k : nat)
    : DataSourceFactory (World := nat) (Src := CalldataBlobSource) :=
  {| OpenDataSource := λ l1height w,
       (ROk (source l1height (stalled k) (λ _ _, []) blobs messages), w) |}.

Definition queue (k : nat)
    : DAQueue (World := nat) (Src := CalldataBlobSource) :=
  NewDAQueue 1 (factory k).

Definition sources : DataSource (World := nat) CalldataBlobSource :=
  CalldataBlobSource_DataSource (codec_lib := codec) 0.

(** A codec that differs from [codec] in one point: a batch with an
    empty chunk does not decode. *)
Definition decode_chunks_strictly (chunks : list bytes)
    : result (list DAChunkRawTx) :=
  if existsb (λ chunk : bytes, match chunk with [] => true | _ => false end) chunks
  then RErr (ExternalError "invalid chunk, length is less than 1")
  else ROk (map decode_chunk chunks).

Definition strict_codec : Codec := {|
  Bitmap := list bool;
  codecv0_DecodeDAChunksRawTx := decode_chunks_strictly;
  codecv1_DecodeDAChunksRawTx := decode_chunks_strictly;
  codecv2_DecodeDAChunksRawTx := decode_chunks_strictly;
  codecv1_DecodeTxsFromBlob := codecv1_DecodeTxsFromBlob (Codec := codec);
  codecv2_DecodeTxsFromBlob := codecv2_DecodeTxsFromBlob (Codec := codec);
  encoding_DecodeBitmap := encoding_DecodeBitmap (Codec := codec);
  encoding_IsL1MessageSkipped := encoding_IsL1MessageSkipped (Codec := codec);
  kzg4844_BlobToCommitment := kzg4844_BlobToCommitment (Codec := codec);
  kzg4844_CalcBlobHashV1 := kzg4844_CalcBlobHashV1 (Codec := codec);
|}.

(** A queue with three buffered entries and no source. *)
Definition buffered : DAQueue (World := nat) (Src := CalldataBlobSource) :=
  {| dq_l1height := 1;
     dataSourceFactory := factory 0;
     dataSource := None;
     dq_da := [NewRevertBatchDA 4; NewFinalizeBatchDA 3; NewRevertBatchDA 9] |}.

(** A factory of sources on the chain of [busy], a queue on it, and one
    on a chain whose client cannot tell the finalized height. *)
Definition busy_factory
    : DataSourceFactory (World := nat) (Src := CalldataBlobSource) :=
  {| OpenDataSource := λ l1height w,
       (ROk (source l1height (λ _, 1000) (λ _ _, interleaved) blobs messages), w) |}.

Definition deaf : CalldataBlobSource (World := nat) :=
  {| l1Client :=
       {| getFinalizedBlockNumber := λ w, (RErr (ExternalError "timeout"), w);
          fetchRollupEventsInRange := λ _ _ w, (ROk [], w);
          fetchTxData := λ vLog w, (ROk (Data vLog), w);
          fetchTxBlobHash := λ vLog w, (ROk (TxHash vLog), w);
          GetHeaderByNumber := λ number w, (ROk {| Time := 12 * number |}, w) |};
     blobClient := blobs_of blobs;
     l1height := 1;
     scrollChainABI := abi;
     l1CommitBatchEventSignature := Events_ID abi "CommitBatch";
     l1RevertBatchEventSignature := Events_ID abi "RevertBatch";
     l1FinalizeBatchEventSignature := Events_ID abi "FinalizeBatch";
     db := messages |}.

(** The constructor of version-0 entries from decoded chunks, reduced to
    the chunks and the block number it is given. *)
Definition entry_of_chunks (db : gmap Z L1MessageTx) (version batchIndex : Z)
    (parentBatchHeader : bytes) (chunks : list DAChunkRawTx)
    (skippedL1MessageBitmap : bytes) (l1BlockNumber : Z)
    : M (World := nat) (list DAChunkRawTx * Z) :=
  mret (chunks, l1BlockNumber).

End Fixture.

(** ** Vocabulary of the statements *)

(** The log [vLog] accounts for the entry [e]: the first topic of the log
    selects the kind of the entry, in the order of the [switch], and the
    entry carries the batch index unpacked from the log. *)
Definition produced_by {World : Type} (ds : CalldataBlobSource (World := World))
    (vLog : Log) (e : DAEntry) : Prop :=
  ∃ topic rest event,
    Topics vLog = topic :: rest ∧
    ((topic = l1CommitBatchEventSignature ds ∧
      UnpackLog (scrollChainABI ds) "CommitBatch" vLog = ROk event ∧
      ∃ c, e = EntryCommit c ∧ cb_BatchIndex c = uint64 event)
     ∨ (topic ≠ l1CommitBatchEventSignature ds ∧
        topic = l1RevertBatchEventSignature ds ∧
        UnpackLog (scrollChainABI ds) "RevertBatch" vLog = ROk event ∧
        e = NewRevertBatchDA (uint64 event))
     ∨ (topic ≠ l1CommitBatchEventSignature ds ∧
        topic ≠ l1RevertBatchEventSignature ds ∧
        topic = l1FinalizeBatchEventSignature ds ∧
        UnpackLog (scrollChainABI ds) "FinalizeBatch" vLog = ROk event ∧
        e = NewFinalizeBatchDA (uint64 event))).


(** The global indices of the message slots of a batch, and those whose
    skip bit is clear. *)
Definition window (parent total : Z) : list Z := seqZ parent total.

Definition non_skipped {codec_lib : Codec} (skippedBitmap : Bitmap)
    (parent total : Z) : list Z :=
  filter (λ index, encoding_IsL1MessageSkipped skippedBitmap (index - parent) = false)
         (window parent total).

(** The messages stored at the given indices, in order; or the first of
    the indices that has no message. *)
Fixpoint attach (db : gmap Z L1MessageTx) (indices : list Z)
    : Z + list L1MessageTx :=
  match indices with
  | [] => inr []
  | index :: rest =>
      match db !! index with
      | None => inl index
      | Some l1Tx =>
          match attach db rest with
          | inl missing => inl missing
          | inr l1Txs => inr (l1Tx :: l1Txs)
          end
      end
  end.

(** The plain sum of the per-block message counts over all chunks. *)
Definition slot_count (chunks : list DAChunkRawTx) : Z :=
  foldr Z.add 0 (NumL1Messages <$> (chunks ≫= Blocks)).

Section QueueVocabulary.

Context {World Src : Type} {source_impl : DataSource (World := World) Src}.

Implicit Types (dq : DAQueue (World := World) (Src := Src))
  (s : State (World := World)).

(** The source a refill pulls from: the one that is open, or else a new
    one opened by the factory at the watermark of the queue. *)
Definition source_in_use dq s (src : Src) (s1 : State (World := World))
    : Prop :=
  match dataSource dq with
  | Some open => src = open ∧ s1 = s
  | None =>
      ∃ w, OpenDataSource (dataSourceFactory dq) (dq_l1height dq) (world s)
             = (ROk src, w) ∧
           s1 = {| world := w;
                   trace := trace s ++ [EvOpenDataSource (dq_l1height dq)] |}
  end.

(** The queue after an exhausted source [src]: the watermark is the
    cursor of the source, the source is dropped, the buffer is empty. *)
Definition after_exhausted dq (src : Src) : DAQueue (World := World) :=
  {| dq_l1height := DataSource_L1Height src;
     dataSourceFactory := dataSourceFactory dq;
     dataSource := None;
     dq_da := [] |}.

(** [k] refills in a row that each find their source exhausted. *)
Inductive exhausted_run
    : nat → DAQueue (World := World) (Src := Src) → State (World := World) →
      DAQueue (World := World) (Src := Src) → State (World := World) → Prop :=
| exhausted_run_O dq s : exhausted_run O dq s dq s
| exhausted_run_S k dq s src s1 src' s2 dqk sk :
    source_in_use dq s src s1 →
    DataSource_NextData src s1 = (Err sourceExhaustedErr, src', s2) →
    exhausted_run k (after_exhausted dq src') s2 dqk sk →
    exhausted_run (S k) dq s dqk sk.

End QueueVocabulary.

(** [f] applied to the value of an outcome. *)
Definition outcome_map {A B} (f : A → B) (o : outcome A) : outcome B :=
  match o with
  | Ok a => Ok (f a)
  | Err e => Err e
  | Panic msg => Panic msg
  | OutOfFuel => OutOfFuel
  end.

(** [k] calls of [NextDA] in a row, up to the first that does not return
    an entry: the entries returned, and the queue and state left. *)
Fixpoint drain {World Src : Type} {source_impl : DataSource (World := World) Src}
    (fuel k : nat) (dq : DAQueue (World := World) (Src := Src))
    (s : State (World := World)) : list DAEntry * DAQueue * State :=
  match k with
  | O => ([], dq, s)
  | S k' =>
      match NextDA fuel dq s with
      | (Ok daEntry, dq, s) =>
          let '(rest, dq, s) := drain fuel k' dq s in (daEntry :: rest, dq, s)
      | (_, dq, s) => ([], dq, s)
      end
  end.

(** ** Package [zktrie] (the secure trie wrapper) *)

Module zktrie.

Definition Byte32 := bytes.

(** The zktrie library and the types of the node it is used with. The
    contents of a [*itrie.ZkTrie] are a value of [ZkTrie]; an operation
    that writes returns the contents after it. A Go function returning
    [(value, error)] or [error] returns its error as an [option]. *)
Class ZkTrieLib := {
  ZkTrie : Type;
  Database : Type;
  StateAccount : Type;
  NewByte32FromBytes : bytes → Byte32;
  NewZkTrie : Byte32 → Database → result ZkTrie;
  itrie_TryGet : ZkTrie → bytes → bytes * option error;
  itrie_TryUpdate : ZkTrie → bytes → Z → list Byte32 → option error * ZkTrie;
  itrie_TryDelete : ZkTrie → bytes → option error * ZkTrie;
  itrie_Hash : ZkTrie → bytes;
  itrie_Copy : ZkTrie → ZkTrie;
  MarshalFields : StateAccount → list Byte32 * Z;
  Hash_Bytes : Hash → bytes;
  Hash_SetBytes : bytes → Hash;
}.

(** What the wrapper writes to the log. *)
Inductive LogLine :=
| LogError (e : error)
| LogWarn (msg : string).

Section SecureTrie.

Context {lib : ZkTrieLib}.

Record SecureTrie := {
  trie : ZkTrie;
  db : Database;
}.

(** A method returns a value and leaves the trie and the log, or
    panics. *)
Inductive reply (A : Type) :=
| Returns (a : A) (t : SecureTrie) (logs : list LogLine)
| Panics (msg : string).
Arguments Returns {A} a t logs.
Arguments Panics {A} msg.

(** [sanityCheckByte32Key]: [Some] is the panic. *)
Definition sanityCheckByte32Key (b : bytes) : option string :=
  if decide (len b ≠ 32 ∧ len b ≠ 20)
  then Some "do not support length except for 120bit and 256bit now"
  else None.

(** [NewSecure]; a nil database is [None]. *)
Definition NewSecure (root : Hash) (db : option Database)
    : string + result SecureTrie :=
  match db with
  | None => inl "zktrie.NewSecure called without a database"
  | Some db =>
      match NewZkTrie (NewByte32FromBytes (Hash_Bytes root)) db with
      | RErr err => inr (RErr err)
      | ROk t => inr (ROk {| trie := t; db := db |})
      end
  end.

Definition TryGet (t : SecureTrie) (logs : list LogLine) (key : bytes)
    : reply (bytes * option error) :=
  match sanityCheckByte32Key key with
  | Some msg => Panics msg
  | None => Returns (itrie_TryGet (trie t) key) t logs
  end.

Definition Get (t : SecureTrie) (logs : list LogLine) (key : bytes)
    : reply bytes :=
  match TryGet t logs key with
  | Panics msg => Panics msg
  | Returns (res, err) t logs =>
      match err with
      | Some err => Returns res t (logs ++ [LogError err])
      | None => Returns res t logs
      end
  end.

Definition TryGetNode (t : SecureTrie) (logs : list LogLine) (path : bytes)
    : reply (bytes * Z * option error) :=
  Panics "implement me!".

Definition TryUpdateAccount (t : SecureTrie) (logs : list LogLine) (key : bytes)
    (acc : StateAccount) : reply (option error) :=
  match sanityCheckByte32Key key with
  | Some msg => Panics msg
  | None =>
      let '(value, flag) := MarshalFields acc in
      let '(err, trie') := itrie_TryUpdate (trie t) key flag value in
      Returns err {| trie := trie'; db := db t |} logs
  end.

Definition TryUpdate (t : SecureTrie) (logs : list LogLine) (key value : bytes)
    : reply (option error) :=
  match sanityCheckByte32Key key with
  | Some msg => Panics msg
  | None =>
      let '(err, trie') :=
        itrie_TryUpdate (trie t) key 1 [NewByte32FromBytes value] in
      Returns err {| trie := trie'; db := db t |} logs
  end.

Definition Update (t : SecureTrie) (logs : list LogLine) (key value : bytes)
    : reply () :=
  match TryUpdate t logs key value with
  | Panics msg => Panics msg
  | Returns (Some err) t logs => Returns () t (logs ++ [LogError err])
  | Returns None t logs => Returns () t logs
  end.

Definition TryDelete (t : SecureTrie) (logs : list LogLine) (key : bytes)
    : reply (option error) :=
  match sanityCheckByte32Key key with
  | Some msg => Panics msg
  | None =>
      let '(err, trie') := itrie_TryDelete (trie t) key in
      Returns err {| trie := trie'; db := db t |} logs
  end.

Definition Delete (t : SecureTrie) (logs : list LogLine) (key : bytes)
    : reply () :=
  match TryDelete t logs key with
  | Panics msg => Panics msg
  | Returns (Some err) t logs => Returns () t (logs ++ [LogError err])
  | Returns None t logs => Returns () t logs
  end.

(** [Hash]: the root hash of the trie. *)
Definition SecureTrie_Hash (t : SecureTrie) : Hash :=
  Hash_SetBytes (itrie_Hash (trie t)).

(** [Commit]; [onleaf] tells whether a callback was passed. *)
Definition Commit (t : SecureTrie) (logs : list LogLine) (onleaf : bool)
    : reply (Hash * Z * option error) :=
  let logs :=
    if onleaf
    then logs ++ [LogWarn "secure trie commit with onleaf callback is skipped!"]
    else logs in
  Returns (SecureTrie_Hash t, 0, None) t logs.

Definition Copy (t : SecureTrie) : SecureTrie :=
  {| trie := itrie_Copy (trie t); db := db t |}.

Definition NodeIterator (t : SecureTrie) (logs : list LogLine) (start : bytes)
    : reply () :=
  Panics "not implemented".

End SecureTrie.

Arguments Returns {lib A} a t logs.
Arguments Panics {lib A} msg.

End zktrie.

(** A trie library simple enough to run: the trie is the list of the
    bindings written, newest first; a lookup of an absent key returns an
    empty value with an error. *)
Module ZkFixture.

#[local] Instance byte_eq_decision : EqDecision byte := Byte.byte_eq_dec.

Fixpoint lookup_key (t : list (bytes * bytes)) (key : bytes) : option bytes :=
  match t with
  | [] => None
  | (k, value) :: t =>
      if decide (k = key) then Some value else lookup_key t key
  end.

Fixpoint remove_key (t : list (bytes * bytes)) (key : bytes)
    : list (bytes * bytes) :=
  match t with
  | [] => []
  | (k, value) :: t =>
      if decide (k = key) then remove_key t key
      else (k, value) :: remove_key t key
  end.

Definition lib : zktrie.ZkTrieLib := {|
  zktrie.ZkTrie := list (bytes * bytes);
  zktrie.Database := ();
  zktrie.StateAccount := Z;
  zktrie.NewByte32FromBytes := λ b, b;
  zktrie.NewZkTrie := λ _ _, ROk [];
  zktrie.itrie_TryGet := λ t key,
    match lookup_key t key with
    | Some value => (value, None)
    | None => ([], Some (ExternalError "key not found"))
    end;
  zktrie.itrie_TryUpdate := λ t key flag value, (None, (key, concat value) :: t);
  zktrie.itrie_TryDelete := λ t key,
    match lookup_key t key with
    | Some _ => (None, remove_key t key)
    | None => (Some (ExternalError "key not found"), t)
    end;
  zktrie.itrie_Hash := λ t, concat (fst <$> t);
  zktrie.itrie_Copy := λ t, t;
  zktrie.MarshalFields := λ acc, ([], acc);
  zktrie.Hash_Bytes := λ _, [];
  zktrie.Hash_SetBytes := be_value;
|}.

Definition empty : zktrie.SecureTrie (lib := lib) :=
  @zktrie.Build_SecureTrie lib [] ().

Definition key20 : bytes := repeat x01 20.

End ZkFixture.

(** * Properties *)

Section Properties.

Context {World : Type} {codec_lib : Codec}.

Implicit Types (s : State (World := World)) (ds : CalldataBlobSource (World := World)).

(** ** Reasoning about the monad *)

Lemma bind_Ok_inv {A B} (m : M A) (f : A → M B) s b s' :
  (m ≫= f) s = (Ok b, s') →
  ∃ a s1, m s = (Ok a, s1) ∧ f a s1 = (Ok b, s').
Proof.
  unfold mbind, M_bind. destruct (m s) as [[a| | |] s1]; try discriminate.
  intros Hf. by exists a, s1.
Qed.

Lemma bind_Ok {A B} (m : M A) (f : A → M B) s a s1 :
  m s = (Ok a, s1) → (m ≫= f) s = f a s1.
Proof. unfold mbind, M_bind. by intros ->. Qed.

Lemma bind_Err {A B} (m : M A) (f : A → M B) s e s1 :
  m s = (Err e, s1) → (m ≫= f) s = (Err e, s1).
Proof. unfold mbind, M_bind. by intros ->. Qed.

Lemma bind_Panic {A B} (m : M A) (f : A → M B) s msg s1 :
  m s = (Panic msg, s1) → (m ≫= f) s = (Panic msg, s1).
Proof. unfold mbind, M_bind. by intros ->. Qed.

Lemma wrap_err_Ok_inv {A} (g : error → error) (m : M A) s a s' :
  wrap_err g m s = (Ok a, s') → m s = (Ok a, s').
Proof.
  unfold wrap_err. destruct (m s) as [[?| | |] ?]; intros; by simplify_eq.
Qed.

Lemma wrap_err_Ok {A} (g : error → error) (m : M A) s a s' :
  m s = (Ok a, s') → wrap_err g m s = (Ok a, s').
Proof. unfold wrap_err. by intros ->. Qed.

Lemma wrap_err_Err {A} (g : error → error) (m : M A) s e s' :
  m s = (Err e, s') → wrap_err g m s = (Err (g e), s').
Proof. unfold wrap_err. by intros ->. Qed.

Lemma lift_Ok_inv {A} (r : result A) s a s' :
  lift r s = (Ok a, s') → r = ROk a ∧ s' = s.
Proof. unfold lift. destruct r; simpl; intros; by simplify_eq. Qed.

Lemma lift_Ok {A} (r : result A) s a :
  r = ROk a → lift r s = (Ok a, s).
Proof. by intros ->. Qed.

Lemma call_Ok_inv {A} ev (op : World → result A * World) s a s' :
  call ev op s = (Ok a, s') →
  ∃ w, op (world s) = (ROk a, w) ∧ s' = {| world := w; trace := trace s ++ [ev] |}.
Proof.
  unfold call. destruct (op (world s)) as [[?|?] w]; simpl; intros; simplify_eq.
  by exists w.
Qed.

Lemma call_Ok {A} ev (op : World → result A * World) s a w :
  op (world s) = (ROk a, w) →
  call ev op s = (Ok a, {| world := w; trace := trace s ++ [ev] |}).
Proof. unfold call. by intros ->. Qed.

Lemma call_Err {A} ev (op : World → result A * World) s e w :
  op (world s) = (RErr e, w) →
  call ev op s = (Err e, {| world := w; trace := trace s ++ [ev] |}).
Proof. unfold call. by intros ->. Qed.

(** A call answers or fails; it neither panics nor spins. *)
Lemma call_cases {A} ev (op : World → result A * World) s :
  ∃ w, let s' := {| world := w; trace := trace s ++ [ev] |} in
       (∃ a, op (world s) = (ROk a, w) ∧ call ev op s = (Ok a, s')) ∨
       (∃ e, op (world s) = (RErr e, w) ∧ call ev op s = (Err e, s')).
Proof.
  unfold call. destruct (op (world s)) as [[a|e] w]; exists w; simpl; eauto.
Qed.

(** ** The header field *)

Lemma be_value_app (b : bytes) (x : byte) :
  be_value (b ++ [x]) = be_value b * 256 + byte_val x.
Proof. unfold be_value. by rewrite fold_left_app. Qed.

Lemma byte_val_range (x : byte) : 0 ≤ byte_val x < 256.
Proof.
  unfold byte_val. pose proof (Byte.to_N_bounded x) as Hx. lia.
Qed.

Lemma be_value_range (b : bytes) : 0 ≤ be_value b < 256 ^ len b.
Proof.
  induction b as [|x b IH] using rev_ind.
  - unfold be_value, len. simpl. lia.
  - rewrite be_value_app. unfold len in *. rewrite length_app. simpl.
    pose proof (byte_val_range x).
    replace (Z.of_nat (length b + 1)) with (Z.of_nat (length b) + 1) by lia.
    rewrite Z.pow_add_r by lia. lia.
Qed.

(** When the capacity of the header reaches 25, the read yields the number
    spelled, most significant byte first, by the eight bytes at offsets 17
    to 24 of the header followed by its spare bytes; it fits 64 bits. *)
Lemma getBatchTotalL1MessagePopped_cap (data spare : bytes) :
  (25 ≤ length data + length spare)%nat →
  ∃ v, getBatchTotalL1MessagePopped data spare = Some v ∧
       v = be_value (take 8 (drop 17 (data ++ spare))) ∧ 0 ≤ v < 2 ^ 64.
Proof.
  intros Hlen. unfold getBatchTotalL1MessagePopped, slice.
  rewrite decide_True by lia. unfold BigEndian_Uint64.
  replace (25 - 17)%nat with 8%nat by lia.
  assert (Hl : length (take 8 (drop 17 (data ++ spare))) = 8%nat).
  { rewrite length_take, length_drop, length_app. lia. }
  rewrite decide_True by lia.
  eexists. split; [reflexivity|]. split.
  - by rewrite take_take.
  - rewrite take_take. simpl.
    pose proof (be_value_range (take 8 (drop 17 (data ++ spare)))) as Hr.
    unfold len in Hr. rewrite Hl in Hr. simpl in Hr. lia.
Qed.

(** On a header of at least 25 bytes the spare bytes play no part. *)
Lemma getBatchTotalL1MessagePopped_long (data spare : bytes) :
  (25 ≤ length data)%nat →
  ∃ v, getBatchTotalL1MessagePopped data spare = Some v ∧
       v = be_value (take 8 (drop 17 data)) ∧ 0 ≤ v < 2 ^ 64.
Proof.
  intros Hlen.
  destruct (getBatchTotalL1MessagePopped_cap data spare) as (v & Hv & -> & Hr);
    [lia|].
  exists (be_value (take 8 (drop 17 (data ++ spare)))).
  split; [done|]. split; [|done].
  rewrite drop_app_le by lia. rewrite take_app_le; [done|].
  rewrite length_drop. lia.
Qed.

Lemma getBatchTotalL1MessagePopped_short (data spare : bytes) :
  (length data + length spare < 25)%nat →
  getBatchTotalL1MessagePopped data spare = None.
Proof.
  intros Hlen. unfold getBatchTotalL1MessagePopped, slice.
  by rewrite decide_False by lia.
Qed.

Lemma getBatchTotalL1MessagePopped_range (data spare : bytes) (v : Z) :
  getBatchTotalL1MessagePopped data spare = Some v → 0 ≤ v < 2 ^ 64.
Proof.
  intros Hread.
  destruct (decide (25 ≤ length data + length spare)%nat) as [Hlen|Hlen].
  - destruct (getBatchTotalL1MessagePopped_cap _ _ Hlen) as (v' & Hv & _ & Hr).
    congruence.
  - rewrite getBatchTotalL1MessagePopped_short in Hread by lia. done.
Qed.

(** The read does not tell a header from its spare bytes. *)
Lemma getBatchTotalL1MessagePopped_join (data spare : bytes) :
  getBatchTotalL1MessagePopped (data ++ spare) [] =
    getBatchTotalL1MessagePopped data spare.
Proof.
  unfold getBatchTotalL1MessagePopped, slice.
  rewrite app_nil_r, length_app. simpl.
  replace (length data + length spare + 0)%nat
    with (length data + length spare)%nat by lia.
  done.
Qed.

(** C10 (the code departs from the claim). The read of the parent's total
    of popped messages has no length check, and a parent batch header of
    fewer than 25 bytes is never answered with a decoding error. Once the
    chunks are decoded, [decodeDAV0] either panics on the slice
    expression (when the capacity of the header is below 25), or reads on
    into the bytes that lie behind the header in its backing array and
    decodes the batch exactly as if those bytes were part of the
    header. *)
Theorem short_parent_header_is_not_an_error ds (batchIndex : Z) (vLog : Log)
    (args : commitBatchArgs) (chunks : list DAChunkRawTx) s :
  (length (ParentBatchHeader args) < 25)%nat →
  codecv0_DecodeDAChunksRawTx (Chunks args) = ROk chunks →
  let header := ParentBatchHeader args in
  let spare := ParentBatchHeaderSpare args in
  ((length header + length spare < 25)%nat →
   getBatchTotalL1MessagePopped header spare = None ∧
   decodeDAV0 ds batchIndex vLog args s = (Panic "slice bounds out of range", s)) ∧
  ((25 ≤ length header + length spare)%nat →
   getBatchTotalL1MessagePopped header spare
     = Some (be_value (take 8 (drop 17 (header ++ spare)))) ∧
   decodeDAV0 ds batchIndex vLog args s =
     decodeDAV0 ds batchIndex vLog
       {| Version := Version args;
          ParentBatchHeader := header ++ spare;
          ParentBatchHeaderSpare := [];
          Chunks := Chunks args;
          SkippedL1MessageBitmap := SkippedL1MessageBitmap args |} s).
Proof.
  intros Hlen Hchunks header spare. split.
  - intros Hcap.
    pose proof (getBatchTotalL1MessagePopped_short _ _ Hcap) as Hnone.
    split; [done|].
    unfold decodeDAV0.
    erewrite bind_Ok; last by apply wrap_err_Ok, lift_Ok.
    apply bind_Panic. unfold read_parent_total. fold header spare.
    by rewrite Hnone.
  - intros Hcap. split.
    + destruct (getBatchTotalL1MessagePopped_cap _ _ Hcap) as (v & Hv & -> & _).
      done.
    + unfold decodeDAV0, read_parent_total. simpl.
      by rewrite getBatchTotalL1MessagePopped_join.
Qed.

(** ** The genesis batch *)

(** C6. For batch index 0 [getCommitBatchDa] returns the empty commit
    entry whatever the log, the source and the collaborators are, and
    leaves the state as it was: the world is not consulted and no call is
    added to the trace. *)
Theorem genesis_commit_is_empty (fuel : nat) ds (vLog : Log) s :
  ∃ c, getCommitBatchDa fuel ds 0 vLog s = (Ok (EntryCommit c), s) ∧
       cb_BatchIndex c = 0 ∧
       cb_Chunks c = [] ∧
       cb_L1Txs c = [] ∧
       cb_SkippedL1MessageBitmap c = [] ∧
       cb_ParentTotalL1MessagePopped c = 0.
Proof.
  unfold getCommitBatchDa. rewrite decide_True by done.
  eexists. split; [reflexivity|]. done.
Qed.

(** ** Revert and finalize entries *)

(** C9 (the code departs from the claim). A log whose first topic is the
    revert or the finalize signature yields an entry with the batch index
    of the event, but the block number of the entry is 0 whatever the
    block number of the log is: the constructors never receive it. *)
Theorem revert_finalize_block_number_is_zero (fuel : nat) ds (vLog : Log)
    (topic : Hash) (rest : list Hash) (event : Z) s :
  Topics vLog = topic :: rest →
  topic ≠ l1CommitBatchEventSignature ds →
  topic = l1RevertBatchEventSignature ds ∨
    topic = l1FinalizeBatchEventSignature ds →
  (∀ name, UnpackLog (scrollChainABI ds) name vLog = ROk event) →
  ∃ e, processLogsToDA fuel ds [vLog] s = (Ok [e], s) ∧
       BatchIndex_of e = uint64 event ∧
       GetL1BlockNumber e = 0.
Proof.
  intros Htopics Hnc Hkind Hunpack.
  unfold processLogsToDA. simpl. rewrite Htopics.
  rewrite decide_False by done.
  destruct (decide (topic = l1RevertBatchEventSignature ds)) as [Hr|Hr].
  - erewrite bind_Ok; last by apply wrap_err_Ok, lift_Ok.
    by eexists.
  - destruct Hkind as [?|Hf]; [done|]. rewrite decide_True by done.
    erewrite bind_Ok; last by apply wrap_err_Ok, lift_Ok.
    by eexists.
Qed.

(** ** The dispatcher *)

Ltac monad_inv :=
  repeat match goal with
  | H : mbind _ _ _ = (Ok _, _) |- _ =>
      let a := fresh "a" in let s1 := fresh "s" in let Hm := fresh "Hm" in
      apply bind_Ok_inv in H as (a & s1 & Hm & H)
  | H : wrap_err _ _ _ = (Ok _, _) |- _ => apply wrap_err_Ok_inv in H
  | H : lift _ _ = (Ok _, _) |- _ =>
      let Hr := fresh "Hr" in apply lift_Ok_inv in H as [Hr ->]
  | H : mret _ _ = (Ok _, _) |- _ => injection H as <- <-
  | H : fail _ _ = (Ok _, _) |- _ => discriminate H
  | H : panic _ _ = (Ok _, _) |- _ => discriminate H
  | H : out_of_fuel _ = (Ok _, _) |- _ => discriminate H
  end.

Lemma decodeDAV0_Ok ds (batchIndex : Z) (vLog : Log) (args : commitBatchArgs)
    (e : DAEntry) s s' :
  decodeDAV0 ds batchIndex vLog args s = (Ok e, s') →
  ∃ c, e = EntryCommit c ∧ cb_BatchIndex c = batchIndex.
Proof. unfold decodeDAV0. intros Hd. monad_inv. by eexists. Qed.

Lemma decodeDAV1_Ok (fuel : nat) ds (batchIndex : Z) (vLog : Log)
    (args : commitBatchArgs) (e : DAEntry) s s' :
  decodeDAV1 fuel ds batchIndex vLog args s = (Ok e, s') →
  ∃ c, e = EntryCommit c ∧ cb_BatchIndex c = batchIndex.
Proof. unfold decodeDAV1. intros Hd. monad_inv. by eexists. Qed.

Lemma decodeDAV2_Ok (fuel : nat) ds (batchIndex : Z) (vLog : Log)
    (args : commitBatchArgs) (e : DAEntry) s s' :
  decodeDAV2 fuel ds batchIndex vLog args s = (Ok e, s') →
  ∃ c, e = EntryCommit c ∧ cb_BatchIndex c = batchIndex.
Proof. unfold decodeDAV2. intros Hd. monad_inv. by eexists. Qed.

Lemma getCommitBatchDa_Ok (fuel : nat) ds (batchIndex : Z) (vLog : Log)
    (e : DAEntry) s s' :
  getCommitBatchDa fuel ds batchIndex vLog s = (Ok e, s') →
  ∃ c, e = EntryCommit c ∧ cb_BatchIndex c = batchIndex.
Proof.
  unfold getCommitBatchDa. case_decide as Hz.
  { intros [= <- <-]. by eexists. }
  intros Hd. monad_inv. case_decide; [discriminate|].
  monad_inv. case_decide; monad_inv.
  - destruct (Version _) as [|[[]|[]|]|];
      eauto using decodeDAV0_Ok, decodeDAV1_Ok, decodeDAV2_Ok; discriminate.
  - eauto using decodeDAV2_Ok.
Qed.

Lemma processLogs_Ok (fuel : nat) ds (logs : list Log) (da da' : DA) s s' :
  processLogs fuel ds logs da s = (Ok da', s') →
  ∃ new, da' = da ++ new ∧ Forall2 (produced_by ds) logs new.
Proof.
  revert da s. induction logs as [|vLog logs IH]; intros da s; simpl.
  { intros [= <- <-]. exists []. by rewrite app_nil_r. }
  destruct (Topics vLog) as [|topic rest] eqn:Htopics; [discriminate|].
  repeat case_decide.
  - intros Hd. monad_inv.
    apply getCommitBatchDa_Ok in Hm0 as (c & -> & Hc).
    apply IH in Hd as (new & -> & Hnew).
    exists (EntryCommit c :: new). split; [by rewrite <- app_assoc|].
    constructor; [|done]. exists topic, rest, a. split; [done|]. left. eauto.
  - intros Hd. monad_inv.
    apply IH in Hd as (new & -> & Hnew).
    eexists (_ :: new). split; [by rewrite <- app_assoc|].
    constructor; [|done]. exists topic, rest, a. split; [done|].
    right; left. eauto.
  - intros Hd. monad_inv.
    apply IH in Hd as (new & -> & Hnew).
    eexists (_ :: new). split; [by rewrite <- app_assoc|].
    constructor; [|done]. exists topic, rest, a. split; [done|].
    right; right. eauto 6.
  - discriminate.
Qed.

(** C7. When [processLogsToDA] succeeds, its output has exactly one entry
    per input log, in the order of the logs: the [i]-th entry is the one
    the [i]-th log accounts for (a commit, revert or finalize entry
    according to the log's first topic, with the log's batch index). *)
Theorem processLogsToDA_one_entry_per_log_in_order (fuel : nat) ds
    (logs : list Log) (da : DA) s s' :
  processLogsToDA fuel ds logs s = (Ok da, s') →
  length da = length logs ∧
  Forall2 (produced_by ds) logs da ∧
  ∀ (i : nat) (vLog : Log), logs !! i = Some vLog →
    ∃ e, da !! i = Some e ∧ produced_by ds vLog e.
Proof.
  intros Hd. apply processLogs_Ok in Hd as (new & -> & Hnew). simpl.
  split; [symmetry; by eapply Forall2_length|]. split; [done|].
  intros i vLog Hi.
  destruct (Forall2_lookup_l _ _ _ _ _ Hnew Hi) as (e & He & Hp). eauto.
Qed.

(** ** Blob authenticity *)

Lemma fetch_verified_blob_Ok_inv ds (vLog : Log) (blob : Blob) s s' :
  fetch_verified_blob ds vLog s = (Ok blob, s') →
  ∃ vh w1 w2 c,
    fetchTxBlobHash (l1Client ds) vLog (world s) = (ROk vh, w1) ∧
    GetBlobByVersionedHash (blobClient ds) vh w1 = (ROk blob, w2) ∧
    kzg4844_BlobToCommitment blob = ROk c ∧
    kzg4844_CalcBlobHashV1 c = vh.
Proof.
  unfold fetch_verified_blob. intros Hd. monad_inv.
  apply call_Ok_inv in Hm as (w1 & Hh & ->).
  apply call_Ok_inv in Hm0 as (w2 & Hb & ->). simpl in Hb.
  case_decide as Hne; [discriminate|]. injection Hd as <- <-.
  exists a, w1, w2, a1. repeat split; try done.
Qed.

Lemma fetch_verified_blob_mismatch ds (vLog : Log) s vh w1 blob w2 c :
  fetchTxBlobHash (l1Client ds) vLog (world s) = (ROk vh, w1) →
  GetBlobByVersionedHash (blobClient ds) vh w1 = (ROk blob, w2) →
  kzg4844_BlobToCommitment blob = ROk c →
  kzg4844_CalcBlobHashV1 c ≠ vh →
  fetch_verified_blob ds vLog s =
    (Err (ErrBlobHashMismatch vh (kzg4844_CalcBlobHashV1 c)),
     {| world := w2;
        trace := trace s ++ [EvFetchTxBlobHash vLog; EvGetBlobByVersionedHash vh] |}).
Proof.
  intros Hh Hb Hc Hne. unfold fetch_verified_blob.
  erewrite bind_Ok; last by eapply wrap_err_Ok, call_Ok.
  erewrite bind_Ok; last by eapply wrap_err_Ok, call_Ok.
  erewrite bind_Ok; last by eapply wrap_err_Ok, lift_Ok.
  rewrite decide_True by done. simpl. by rewrite <- app_assoc.
Qed.

(** C2. [decodeDAV1], [decodeDAV2] and
    [da.NewCommitBatchDAV1WithBlobDecodeFunc] recompute the versioned hash
    of the blob they fetched from its commitment and compare it with the
    versioned hash fetched from the transaction. They return an entry only
    if the two are equal. If they differ, decoding ends with the
    authenticity error that names both hashes, and the only calls made
    since the start are the fetches of the hash (and header) and of the
    blob: [DecodeTxsFromBlob] is not called. *)
Theorem blob_hash_checked_before_decoding (fuel : nat) ds (batchIndex : Z)
    (vLog : Log) (args : commitBatchArgs) s
    (vh : Hash) (w1 : World) (blob : Blob) (w2 : World) (c : Commitment) :
  fetchTxBlobHash (l1Client ds) vLog (world s) = (ROk vh, w1) →
  kzg4844_BlobToCommitment blob = ROk c →
  let blobVersionedHash := kzg4844_CalcBlobHashV1 c in
  let mismatch := ErrBlobHashMismatch vh blobVersionedHash in
  (GetBlobByVersionedHash (blobClient ds) vh w1 = (ROk blob, w2) →
   let s2 := {| world := w2;
                trace := trace s ++ [EvFetchTxBlobHash vLog;
                                     EvGetBlobByVersionedHash vh] |} in
   (∀ e s', decodeDAV1 fuel ds batchIndex vLog args s = (Ok e, s') →
            blobVersionedHash = vh) ∧
   (∀ e s', decodeDAV2 fuel ds batchIndex vLog args s = (Ok e, s') →
            blobVersionedHash = vh) ∧
   (blobVersionedHash ≠ vh →
    (∀ chunks, codecv1_DecodeDAChunksRawTx (Chunks args) = ROk chunks →
               decodeDAV1 fuel ds batchIndex vLog args s = (Err mismatch, s2)) ∧
    (∀ chunks, codecv2_DecodeDAChunksRawTx (Chunks args) = ROk chunks →
               decodeDAV2 fuel ds batchIndex vLog args s = (Err mismatch, s2)))) ∧
  (∀ (CommitBatchDAV0 : Type)
     (NewCommitBatchDAV0WithChunks :
        gmap Z L1MessageTx → Z → Z → bytes → list DAChunkRawTx → bytes → Z →
        M CommitBatchDAV0)
     (version : Z) decodeTxsFromBlobFunc (header : Header) (w3 : World),
     GetHeaderByNumber (l1Client ds) (BlockNumber vLog) w1 = (ROk header, w2) →
     GetBlobByVersionedHashAndBlockTime (blobClient ds) vh (Time header) w2
       = (ROk (Some blob), w3) →
     let new :=
       da.NewCommitBatchDAV1WithBlobDecodeFunc NewCommitBatchDAV0WithChunks
         (db ds) (l1Client ds) (blobClient ds) vLog version batchIndex
         (ParentBatchHeader args) (Chunks args) (SkippedL1MessageBitmap args)
         decodeTxsFromBlobFunc in
     let s3 := {| world := w3;
                  trace := trace s ++
                    [EvFetchTxBlobHash vLog;
                     EvGetHeaderByNumber (BlockNumber vLog);
                     EvGetBlobByVersionedHashAndBlockTime vh (Time header)] |} in
     (∀ e s', new s = (Ok e, s') → blobVersionedHash = vh) ∧
     (blobVersionedHash ≠ vh →
      ∀ chunks, codecv1_DecodeDAChunksRawTx (Chunks args) = ROk chunks →
                new s = (Err mismatch, s3))).
Proof.
  intros Hh Hc bvh mismatch. split.
  - intros Hb s2.
    assert (Hfrom : ∀ blob' s', fetch_verified_blob ds vLog s = (Ok blob', s') →
                                bvh = vh).
    { intros blob' s' Hf.
      apply fetch_verified_blob_Ok_inv in Hf as (vh' & w1' & w2' & c' & Hh' & Hb' & Hc' & Heq).
      rewrite Hh in Hh'. injection Hh' as <- <-.
      rewrite Hb in Hb'. injection Hb' as <- <-.
      rewrite Hc in Hc'. by injection Hc' as <-. }
    split; [|split; [|intros Hne; split]].
    + unfold decodeDAV1. intros e s' Hd. monad_inv. eauto.
    + unfold decodeDAV2. intros e s' Hd. monad_inv. eauto.
    + intros chunks Hchunks. unfold decodeDAV1.
      erewrite bind_Ok; last by eapply wrap_err_Ok, lift_Ok.
      eapply bind_Err. by eapply fetch_verified_blob_mismatch.
    + intros chunks Hchunks. unfold decodeDAV2.
      erewrite bind_Ok; last by eapply wrap_err_Ok, lift_Ok.
      eapply bind_Err. by eapply fetch_verified_blob_mismatch.
  - intros V0 NewV0 version decodeFn header w3 Hhd Hb new s3. split.
    + subst new. unfold da.NewCommitBatchDAV1WithBlobDecodeFunc.
      intros e s' Hd. monad_inv.
      apply call_Ok_inv in Hm0 as (w1' & Hh' & ->).
      rewrite Hh in Hh'. injection Hh' as <- <-.
      apply call_Ok_inv in Hm1 as (w2' & Hhd' & ->). simpl in Hhd'.
      rewrite Hhd in Hhd'. injection Hhd' as <- <-.
      apply call_Ok_inv in Hm2 as (w3' & Hb' & ->). simpl in Hb'.
      rewrite Hb in Hb'. injection Hb' as <- <-.
      monad_inv. rewrite Hc in Hr0. injection Hr0 as <-.
      case_decide as Hne; [discriminate|].
      by destruct (decide (bvh = vh)).
    + intros Hne chunks Hchunks. subst new.
      unfold da.NewCommitBatchDAV1WithBlobDecodeFunc.
      erewrite bind_Ok; last by eapply wrap_err_Ok, lift_Ok.
      erewrite bind_Ok; last by eapply wrap_err_Ok, call_Ok.
      erewrite bind_Ok; last by eapply wrap_err_Ok, call_Ok.
      erewrite bind_Ok; last by eapply wrap_err_Ok, call_Ok.
      cbv beta iota.
      erewrite bind_Ok; last by eapply wrap_err_Ok, lift_Ok.
      rewrite decide_True by done. unfold fail, mismatch, s3. simpl.
      by rewrite <- !app_assoc.
Qed.

(** ** Dispatch on the method and the version *)

(** C5 (as amended). After the call data is fetched and its first four
    bytes select a method whose inputs unpack, a call of [commitBatch] is
    decoded by dispatch on its version field: 0, 1 and 2 go to their
    decoders, any other version fails with the unknown-version error. A
    call of any other method is read as [commitBatchWithBlobProof]: its
    arguments are brought to the shape of the plain call, the proof is
    dropped, and it is always decoded by [decodeDAV2], whatever its
    version field holds. *)
Theorem commit_call_decoded_by_method_then_version (fuel : nat) ds
    (batchIndex : Z) (vLog : Log) s (txData : bytes) (w1 : World)
    (method : Method (scrollChainABI ds)) (values : Values (scrollChainABI ds)) :
  batchIndex ≠ 0 →
  fetchTxData (l1Client ds) vLog (world s) = (ROk txData, w1) →
  methodIDLength ≤ len txData →
  MethodById (scrollChainABI ds) (take 4 txData) = ROk method →
  Inputs_Unpack (scrollChainABI ds) method (drop 4 txData) = ROk values →
  let s1 := {| world := w1; trace := trace s ++ [EvFetchTxData vLog] |} in
  (Method_Name (scrollChainABI ds) method = "commitBatch" →
   ∀ args,
     Inputs_Copy_commitBatchArgs (scrollChainABI ds) method values = ROk args →
     getCommitBatchDa fuel ds batchIndex vLog s =
       if decide (Version args = 0) then decodeDAV0 ds batchIndex vLog args s1
       else if decide (Version args = 1) then decodeDAV1 fuel ds batchIndex vLog args s1
       else if decide (Version args = 2) then decodeDAV2 fuel ds batchIndex vLog args s1
       else (Err (ErrUnknownCodecVersion (Version args)), s1)) ∧
  (Method_Name (scrollChainABI ds) method ≠ "commitBatch" →
   ∀ args,
     Inputs_Copy_commitBatchWithBlobProofArgs (scrollChainABI ds) method values
       = ROk args →
     getCommitBatchDa fuel ds batchIndex vLog s =
       decodeDAV2 fuel ds batchIndex vLog
         {| Version := bp_Version args;
            ParentBatchHeader := bp_ParentBatchHeader args;
            ParentBatchHeaderSpare := bp_ParentBatchHeaderSpare args;
            Chunks := bp_Chunks args;
            SkippedL1MessageBitmap := bp_SkippedL1MessageBitmap args |} s1).
Proof.
  intros Hnz Htx Hlen Hmethod Hvalues s1.
  assert (Hstart : ∀ k : bytes → M DAEntry,
            (txData ← call (EvFetchTxData vLog) (fetchTxData (l1Client ds) vLog);
             k txData) s = k txData s1).
  { intros k. erewrite bind_Ok; [reflexivity|]. by apply call_Ok. }
  split.
  - intros Hname args Hargs. unfold getCommitBatchDa.
    rewrite decide_False by done. rewrite Hstart.
    rewrite decide_False by lia. cbv zeta.
    erewrite bind_Ok; last by eapply wrap_err_Ok, lift_Ok.
    erewrite bind_Ok; last by eapply wrap_err_Ok, lift_Ok.
    rewrite decide_True by done.
    erewrite bind_Ok; last by eapply wrap_err_Ok, lift_Ok.
    destruct (Version args) as [|[[]|[]|]|]; repeat case_decide; try done.
  - intros Hname args Hargs. unfold getCommitBatchDa.
    rewrite decide_False by done. rewrite Hstart.
    rewrite decide_False by lia. cbv zeta.
    erewrite bind_Ok; last by eapply wrap_err_Ok, lift_Ok.
    erewrite bind_Ok; last by eapply wrap_err_Ok, lift_Ok.
    rewrite decide_False by done.
    erewrite bind_Ok; last by eapply wrap_err_Ok, lift_Ok.
    reflexivity.
Qed.

(** X5. Call data shorter than the four bytes of a selector fails with
    the error that gives its length, and a selector the ABI does not know
    fails with the lookup error under those four bytes; in both cases the
    fetch of the call data is the only call made. *)
Lemma getCommitBatchDa_bad_selector (fuel : nat) ds (batchIndex : Z)
    (vLog : Log) s (txData : bytes) (w1 : World) :
  batchIndex ≠ 0 →
  fetchTxData (l1Client ds) vLog (world s) = (ROk txData, w1) →
  let s1 := {| world := w1; trace := trace s ++ [EvFetchTxData vLog] |} in
  (len txData < methodIDLength →
   getCommitBatchDa fuel ds batchIndex vLog s
     = (Err (ErrTxDataTooShort (len txData)), s1)) ∧
  (methodIDLength ≤ len txData →
   ∀ e, MethodById (scrollChainABI ds) (take 4 txData) = RErr e →
        getCommitBatchDa fuel ds batchIndex vLog s
          = (Err (ErrMethodById (take 4 txData) e), s1)).
Proof.
  intros Hnz Htx s1. split.
  - intros Hlen. unfold getCommitBatchDa. rewrite decide_False by done.
    erewrite bind_Ok; last by apply call_Ok.
    by rewrite decide_True by done.
  - intros Hlen e He. unfold getCommitBatchDa. rewrite decide_False by done.
    erewrite bind_Ok; last by apply call_Ok.
    rewrite decide_False by lia. cbv zeta.
    eapply bind_Err. apply wrap_err_Err. unfold lift. by rewrite He.
Qed.

(** ** One step of the source *)

Lemma bind_Err_inv {A B} (m : M A) (f : A → M B) s e s' :
  (m ≫= f) s = (Err e, s') →
  m s = (Err e, s') ∨ ∃ a s1, m s = (Ok a, s1) ∧ f a s1 = (Err e, s').
Proof.
  unfold mbind, M_bind. destruct (m s) as [[a|e0| |] s1]; intros Hf;
    try discriminate Hf.
  - right. by exists a, s1.
  - injection Hf as -> ->. by left.
Qed.

Lemma wrap_err_Err_inv {A} (g : error → error) (m : M A) s e s' :
  wrap_err g m s = (Err e, s') → ∃ e0, m s = (Err e0, s') ∧ e = g e0.
Proof.
  unfold wrap_err. destruct (m s) as [[?|e0| |] ?]; intros; simplify_eq.
  by exists e0.
Qed.

(** Every error of the dispatcher is one it built itself; it never
    returns the sentinel of an exhausted source. *)
Lemma processLogs_not_exhausted (fuel : nat) ds (logs : list Log) (da : DA) s s' :
  processLogs fuel ds logs da s ≠ (Err sourceExhaustedErr, s').
Proof.
  revert da s. induction logs as [|vLog logs IH]; intros da s; simpl; [done|].
  destruct (Topics vLog) as [|topic rest]; [done|].
  intros Hd. repeat case_decide; [| | |done];
    repeat match goal with
    | H : mbind _ _ _ = (Err _, _) |- _ =>
        apply bind_Err_inv in H as [H | (? & ? & _ & H)]
    | H : wrap_err _ _ _ = (Err sourceExhaustedErr, _) |- _ =>
        apply wrap_err_Err_inv in H as (? & _ & ?); discriminate
    end; by eapply IH.
Qed.

Lemma uint64_range (z : Z) : 0 ≤ uint64 z < 2 ^ 64.
Proof. unfold uint64. apply Z.mod_pos_bound. lia. Qed.

Lemma uint64_small (z : Z) : 0 ≤ z < 2 ^ 64 → uint64 z = z.
Proof. unfold uint64. intros. by apply Z.mod_small. Qed.

Lemma rangeEnd_min (l1height l1Finalized : Z) :
  rangeEnd l1height l1Finalized =
    Z.min (uint64 (l1height + callDataBlobSourceFetchBlockRange))
          (uint64 l1Finalized).
Proof. unfold rangeEnd. cbv zeta. case_decide; lia. Qed.


(** C4 (as amended). With [finalizedHeight] the answer to the query that
    opens the step, the step ends its range at
    [to = min(cursor + WINDOW, finalizedHeight)] in unsigned 64-bit
    arithmetic, with [WINDOW = 500]: [to] is the upper end of the range
    it fetches and the cursor after a successful decode is [to + 1]. When
    [cursor > to], and so whenever [finalizedHeight < cursor], the step
    returns the exhausted sentinel after the query alone and leaves the
    source unchanged. *)
Theorem NextData_range_end_and_exhaustion (fuel : nat) ds s (fin : Z) (w1 : World) :
  getFinalizedBlockNumber (l1Client ds) (world s) = (ROk fin, w1) →
  let finalizedHeight := uint64 fin in
  let to := Z.min (uint64 (l1height ds + callDataBlobSourceFetchBlockRange))
                  finalizedHeight in
  let s1 := {| world := w1; trace := trace s ++ [EvGetFinalizedBlockNumber] |} in
  callDataBlobSourceFetchBlockRange = 500 ∧
  (l1height ds > to → NextData fuel ds s = (Err sourceExhaustedErr, ds, s1)) ∧
  (finalizedHeight < l1height ds →
   NextData fuel ds s = (Err sourceExhaustedErr, ds, s1)) ∧
  (l1height ds ≤ to →
   ∀ w2,
     let s2 := {| world := w2;
                  trace := trace s ++ [EvGetFinalizedBlockNumber;
                                       EvFetchRollupEventsInRange (l1height ds) to] |} in
     (∀ e, fetchRollupEventsInRange (l1Client ds) (l1height ds) to w1 = (RErr e, w2) →
           NextData fuel ds s = (Err (ErrGetEvents (l1height ds) e), ds, s2)) ∧
     (∀ logs r s',
        fetchRollupEventsInRange (l1Client ds) (l1height ds) to w1 = (ROk logs, w2) →
        processLogsToDA fuel ds logs s2 = (r, s') →
        r ≠ Err sourceExhaustedErr ∧
        NextData fuel ds s =
          (r, match r with
              | Ok _ => set_l1height ds (uint64 (to + 1))
              | _ => ds
              end, s'))).
Proof.
  intros Hfin finalizedHeight to s1.
  assert (Hto : rangeEnd (l1height ds) fin = to) by apply rangeEnd_min.
  assert (Hex : l1height ds > to →
                NextData fuel ds s = (Err sourceExhaustedErr, ds, s1)).
  { intros Hgt. unfold NextData. erewrite call_Ok by done.
    rewrite Hto. by rewrite decide_True by done. }
  split; [done|]. split; [done|]. split.
  { intros Hlt. apply Hex. lia. }
  intros Hle w2 s2. split.
  - intros e He. unfold NextData. erewrite call_Ok by done.
    rewrite Hto. rewrite decide_False by lia.
    erewrite call_Err by done. simpl. by rewrite <- app_assoc.
  - intros logs r s' Hlogs Hproc. split.
    { intros ->. by eapply processLogs_not_exhausted. }
    unfold NextData. erewrite call_Ok by done.
    rewrite Hto. rewrite decide_False by lia.
    erewrite call_Ok by done. simpl. rewrite <- app_assoc. simpl.
    fold s2. rewrite Hproc. by destruct r.
Qed.

Lemma rangeEnd_range (l1height l1Finalized : Z) :
  0 ≤ rangeEnd l1height l1Finalized < 2 ^ 64 ∧
  rangeEnd l1height l1Finalized ≤ uint64 l1Finalized.
Proof.
  rewrite rangeEnd_min.
  pose proof (uint64_range (l1height + callDataBlobSourceFetchBlockRange)).
  pose proof (uint64_range l1Finalized). lia.
Qed.

(** What a step did, read off its result. *)
Lemma NextData_inv (fuel : nat) ds s (r : outcome DA) ds' s' :
  NextData fuel ds s = (r, ds', s') →
  (∃ da fin w1 logs w2,
     r = Ok da ∧
     getFinalizedBlockNumber (l1Client ds) (world s) = (ROk fin, w1) ∧
     l1height ds ≤ rangeEnd (l1height ds) fin ∧
     fetchRollupEventsInRange (l1Client ds) (l1height ds)
       (rangeEnd (l1height ds) fin) w1 = (ROk logs, w2) ∧
     processLogsToDA fuel ds logs
       {| world := w2;
          trace := trace s ++
            [EvGetFinalizedBlockNumber;
             EvFetchRollupEventsInRange (l1height ds) (rangeEnd (l1height ds) fin)] |}
       = (Ok da, s') ∧
     ds' = set_l1height ds (uint64 (rangeEnd (l1height ds) fin + 1)))
  ∨ (¬ is_Ok r ∧ ds' = ds).
Proof.
  unfold NextData. intros Hn.
  destruct (call_cases EvGetFinalizedBlockNumber
              (getFinalizedBlockNumber (l1Client ds)) s)
    as (w1 & [(fin & Hfin & Hcall) | (e & _ & Hcall)]);
    rewrite Hcall in Hn; clear Hcall;
    [|injection Hn as <- <- <-; right; split; [by intros [? ?]|done]].
  case_decide as Hgt;
    [injection Hn as <- <- <-; right; split; [by intros [? ?]|done]|].
  set (to := rangeEnd (l1height ds) fin) in *.
  match type of Hn with context [call ?ev ?op ?st] =>
    destruct (call_cases ev op st)
      as (w2 & [(logs & Hlogs & Hcall) | (e & _ & Hcall)]);
      rewrite Hcall in Hn; clear Hcall
  end;
    [|injection Hn as <- <- <-; right; split; [by intros [? ?]|done]].
  simpl in Hlogs, Hn. rewrite <- app_assoc in Hn. simpl in Hn.
  destruct (processLogsToDA _ _ _ _) as [[da|e|msg|] s3] eqn:Hproc;
    injection Hn as <- <- <-;
    try (right; split; [by intros [? ?]|done]).
  left. exists da, fin, w1, logs, w2. repeat split; try done; lia.
Qed.


(** A step whose finalized height lies below the cursor is exhausted. *)
Lemma NextData_exhausted (fuel : nat) ds s (fin : Z) (w1 : World) :
  getFinalizedBlockNumber (l1Client ds) (world s) = (ROk fin, w1) →
  uint64 fin < l1height ds →
  NextData fuel ds s =
    (Err sourceExhaustedErr, ds,
     {| world := w1; trace := trace s ++ [EvGetFinalizedBlockNumber] |}).
Proof.
  intros Hfin Hlt. unfold NextData. erewrite call_Ok by done.
  pose proof (rangeEnd_range (l1height ds) fin) as [_ Hmax].
  by rewrite decide_True by lia.
Qed.

(** ** The queue *)

Section QueueProperties.

Context {Src : Type} {source_impl : DataSource (World := World) Src}.

Implicit Types (dq : DAQueue (World := World) (Src := Src)).

Lemma getNextData_step_exhausted (fuel : nat) dq s (src : Src) s1 (src' : Src) s2 :
  source_in_use dq s src s1 →
  DataSource_NextData src s1 = (Err sourceExhaustedErr, src', s2) →
  getNextData (S fuel) dq s =
    let '(r, dq', s3, frames) := getNextData fuel (after_exhausted dq src') s2 in
    (r, dq', s3, S frames).
Proof.
  intros Huse Hnext. simpl. unfold source_in_use in Huse.
  destruct (dataSource dq) as [open|].
  - destruct Huse as [-> ->]. by rewrite Hnext.
  - destruct Huse as (w & Hopen & ->). erewrite call_Ok by done.
    by rewrite Hnext.
Qed.

Lemma getNextData_after_exhausted_run (k : nat) dq s dqk sk :
  exhausted_run k dq s dqk sk →
  ∀ (fuel : nat) r dq' s' (frames : nat),
    getNextData fuel dqk sk = (r, dq', s', frames) →
    getNextData (k + fuel) dq s = (r, dq', s', (k + frames)%nat).
Proof.
  induction 1 as [|k dq s src s1 src' s2 dqk sk Huse Hnext _ IH];
    intros fuel r dq' s' frames Hlast; [done|].
  change (S k + fuel)%nat with (S (k + fuel)).
  erewrite getNextData_step_exhausted by done.
  by erewrite IH by done.
Qed.

(** C8 (as amended). A refill that finds its source exhausted takes the
    cursor of the source as the new watermark, drops the source and
    retries; the retry is a call of [getNextData] from within
    [getNextData]. After [k] exhausted refills in a row, the outcome,
    queue and state are those of the refill that ends the run, and that
    refill runs with the [k] earlier activations still on the stack: the
    depth of the stack grows by one with every exhausted result. *)
Theorem exhausted_refill_retries_by_nested_call (k fuel : nat) dq s dqk sk
    (r : outcome ()) dq' s' (frames : nat) :
  exhausted_run k dq s dqk sk →
  getNextData fuel dqk sk = (r, dq', s', frames) →
  getNextData (k + fuel) dq s = (r, dq', s', (k + frames)%nat).
Proof. intros Hrun. by apply getNextData_after_exhausted_run. Qed.

End QueueProperties.

(** ** The message walk of version 0 *)

Lemma int_small (z : Z) : - 2 ^ 63 ≤ z < 2 ^ 63 → int z = z.
Proof.
  intros Hz. unfold int. rewrite Z.mod_small by lia. lia.
Qed.

(** X8. The total of message slots computed by the decoders is the plain
    sum of the per-block counts over all chunks, as long as that sum fits
    Go's [int]. *)
Lemma totalL1MessagePopped_sum (chunks : list DAChunkRawTx) :
  Forall (λ block, 0 ≤ NumL1Messages block) (chunks ≫= Blocks) →
  slot_count chunks < 2 ^ 63 →
  totalL1MessagePopped chunks = slot_count chunks.
Proof.
  unfold totalL1MessagePopped, slot_count.
  assert (Hnonneg : ∀ blocks : list DABlock,
            Forall (λ block, 0 ≤ NumL1Messages block) blocks →
            0 ≤ foldr Z.add 0 (NumL1Messages <$> blocks)).
  { induction 1; csimpl; lia. }
  assert (Hblocks : ∀ (blocks : list DABlock) (acc : Z),
            Forall (λ block, 0 ≤ NumL1Messages block) blocks →
            0 ≤ acc →
            acc + foldr Z.add 0 (NumL1Messages <$> blocks) < 2 ^ 63 →
            fold_left (λ total block, int (total + NumL1Messages block)) blocks acc
              = acc + foldr Z.add 0 (NumL1Messages <$> blocks)).
  { induction blocks as [|b blocks IH]; intros acc Hpos Hacc Hsum; csimpl in *.
    - lia.
    - apply Forall_cons in Hpos as [Hb Hpos].
      pose proof (Hnonneg _ Hpos).
      rewrite int_small by lia. rewrite IH by (done || lia). lia. }
  assert (Hsplit : ∀ (l : list Z) (z : Z), foldr Z.add z l = foldr Z.add 0 l + z).
  { induction l as [|x l IHl]; intros z; simpl; [lia|]. rewrite IHl. lia. }
  enough (Hgen : ∀ (acc : Z),
            Forall (λ block, 0 ≤ NumL1Messages block) (chunks ≫= Blocks) →
            0 ≤ acc →
            acc + foldr Z.add 0 (NumL1Messages <$> (chunks ≫= Blocks)) < 2 ^ 63 →
            fold_left
              (λ total chunk,
                 fold_left (λ total block, int (total + NumL1Messages block))
                           (Blocks chunk) total) chunks acc
              = acc + foldr Z.add 0 (NumL1Messages <$> (chunks ≫= Blocks))).
  { intros Hpos Hsum. rewrite Hgen by (done || lia). lia. }
  induction chunks as [|chunk chunks IH]; intros acc Hpos Hacc Hsum.
  - simpl. lia.
  - rewrite bind_cons in Hpos, Hsum |- *.
    apply Forall_app in Hpos as [Hhere Hrest].
    rewrite fmap_app, foldr_app in Hsum |- *.
    pose proof (Hnonneg _ Hhere). pose proof (Hnonneg _ Hrest).
    rewrite Hsplit in Hsum |- *. cbn [fold_left].
    rewrite Hblocks by (done || lia). rewrite IH by (done || lia). lia.
Qed.

Lemma walkV0_spec ds (skippedBitmap : Bitmap) (parent : Z) (n : nat)
    (currentIndex : Z) (l1Txs : list L1MessageTx) s :
  n = O ∨ (0 ≤ parent ≤ currentIndex ∧ currentIndex + Z.of_nat n ≤ 2 ^ 64) →
  (walkV0 ds skippedBitmap parent n currentIndex l1Txs s).1 =
    match attach (db ds)
            (filter (λ index, encoding_IsL1MessageSkipped skippedBitmap
                                (index - parent) = false)
                    (seqZ currentIndex (Z.of_nat n))) with
    | inr found => Ok (l1Txs ++ found)
    | inl missing => Err (ErrReadL1Message missing)
    end.
Proof.
  revert currentIndex l1Txs s.
  induction n as [|n IH]; intros currentIndex l1Txs s Hrange.
  { simpl. by rewrite app_nil_r. }
  destruct Hrange as [|[Hp Hn]]; [done|].
  assert (Hnext : n = O ∨
            (0 ≤ parent ≤ uint64 (currentIndex + 1) ∧
             uint64 (currentIndex + 1) + Z.of_nat n ≤ 2 ^ 64)).
  { destruct n; [by left|right]. rewrite uint64_small by lia. lia. }
  assert (Hseq : seqZ (uint64 (currentIndex + 1)) (Z.of_nat n)
                 = seqZ (Z.succ currentIndex) (Z.pred (Z.of_nat (S n)))).
  { destruct n; [done|]. rewrite uint64_small by lia. f_equal; lia. }
  rewrite seqZ_cons by lia. rewrite <- Hseq.
  cbn [walkV0]. rewrite (uint64_small (currentIndex - parent)) by lia.
  destruct (encoding_IsL1MessageSkipped skippedBitmap (currentIndex - parent))
    eqn:Hbit.
  - rewrite filter_cons_False by (by rewrite Hbit). by apply IH.
  - rewrite filter_cons_True by done. cbn [attach].
    unfold mbind, M_bind, ReadL1Message.
    destruct (db ds !! currentIndex) as [l1Tx|]; [|done].
    rewrite IH by done.
    destruct (attach _ _); [done|]. by rewrite <- app_assoc.
Qed.

(** X9. [decodeDAV0] attaches exactly the messages stored at the slots of
    [[parent, parent + total)] whose bit is clear, in order; a clear slot
    without a message fails the decode with the error naming that
    index. *)
Lemma decodeDAV0_attaches_window ds (batchIndex : Z) (vLog : Log)
    (args : commitBatchArgs) (chunks : list DAChunkRawTx) (parent : Z)
    (skippedBitmap : Bitmap) s :
  codecv0_DecodeDAChunksRawTx (Chunks args) = ROk chunks →
  getBatchTotalL1MessagePopped (ParentBatchHeader args)
    (ParentBatchHeaderSpare args) = Some parent →
  encoding_DecodeBitmap (SkippedL1MessageBitmap args) (totalL1MessagePopped chunks)
    = ROk skippedBitmap →
  0 ≤ parent →
  parent + totalL1MessagePopped chunks ≤ 2 ^ 64 →
  (decodeDAV0 ds batchIndex vLog args s).1 =
    match attach (db ds)
            (non_skipped skippedBitmap parent (totalL1MessagePopped chunks)) with
    | inr l1Txs =>
        Ok (NewCommitBatchDaV0 (Version args) batchIndex parent
              (SkippedL1MessageBitmap args) chunks l1Txs (BlockNumber vLog))
    | inl missing => Err (ErrReadL1Message missing)
    end.
Proof.
  intros Hchunks Hparent Hbitmap Hp Hfit. unfold decodeDAV0.
  erewrite bind_Ok; last by apply wrap_err_Ok, lift_Ok.
  erewrite bind_Ok; last by (unfold read_parent_total; rewrite Hparent).
  cbv zeta.
  erewrite bind_Ok; last by apply wrap_err_Ok, lift_Ok.
  set (total := totalL1MessagePopped chunks) in *.
  pose proof (walkV0_spec ds skippedBitmap parent (Z.to_nat total) parent [] s)
    as Hwalk.
  unfold non_skipped, window.
  destruct (decide (0 ≤ total)) as [Hpos|Hneg].
  - rewrite Z2Nat.id in Hwalk by done.
    unfold mbind, M_bind.
    destruct (walkV0 _ _ _ _ _ _ _) as [r s'].
    simpl in Hwalk. rewrite Hwalk by (right; lia).
    by destruct (attach _ _).
  - replace (Z.to_nat total) with O by lia.
    rewrite seqZ_nil by lia. done.
Qed.

(** ** The message walk of versions 1 and 2 *)

(** C1 (the code departs from the claim). Take a batch with two message
    slots, the first marked as skipped and the second not, and let the bit
    after the window be clear. The walk of [decodeDAV0] attaches the one
    message of the window that is not skipped. The walk of [decodeDAV1]
    and [decodeDAV2] runs over the skipped slot without counting it and
    then reads two messages: it attaches the message at index
    [parent + 2], which lies outside the window
    [[parent, parent + 2)], and if the store has no message there it
    fails naming that index. *)
Theorem walkV1_reads_past_the_window (fuel : nat) ds (skippedBitmap : Bitmap)
    (parent : Z) (l1Tx : L1MessageTx) s :
  0 ≤ parent →
  parent + 3 ≤ 2 ^ 64 →
  encoding_IsL1MessageSkipped skippedBitmap 0 = true →
  encoding_IsL1MessageSkipped skippedBitmap 1 = false →
  encoding_IsL1MessageSkipped skippedBitmap 2 = false →
  db ds !! (parent + 1) = Some l1Tx →
  non_skipped skippedBitmap parent 2 = [parent + 1] ∧
  (walkV0 ds skippedBitmap parent 2 parent [] s).1 = Ok [l1Tx] ∧
  (walkV1 ds skippedBitmap parent (S (S fuel)) 2 parent [] s).1 =
    match db ds !! (parent + 2) with
    | Some outside => Ok [l1Tx; outside]
    | None => Err (ErrReadL1Message (parent + 2))
    end.
Proof.
  intros Hp Hfit Hbit0 Hbit1 Hbit2 Hmsg.
  assert (Hwin : non_skipped skippedBitmap parent 2 = [parent + 1]).
  { unfold non_skipped, window.
    assert (seqZ parent 2 = [parent; parent + 1]) as ->.
    { unfold seqZ. simpl. repeat (f_equal; try lia). }
    rewrite filter_cons_False;
      last by (replace (parent - parent) with 0 by lia; rewrite Hbit0).
    rewrite filter_cons_True;
      last by (replace (parent + 1 - parent) with 1 by lia).
    done. }
  split; [done|]. split.
  - rewrite walkV0_spec by (right; lia).
    change (seqZ parent (Z.of_nat 2)) with (window parent 2).
    fold (non_skipped skippedBitmap parent 2). rewrite Hwin.
    simpl. by rewrite Hmsg.
  - cbn [walkV1 skipSet].
    replace (parent - parent) with 0 by lia.
    rewrite (uint64_small 0) by lia. rewrite Hbit0.
    rewrite (uint64_small (parent + 1)) by lia.
    replace (parent + 1 - parent) with 1 by lia.
    rewrite (uint64_small 1) by lia. rewrite Hbit1.
    unfold mbind, M_bind, ReadL1Message. rewrite Hmsg.
    rewrite (uint64_small (parent + 1 + 1)) by lia.
    replace (parent + 1 + 1 - parent) with 2 by lia.
    rewrite (uint64_small 2) by lia. rewrite Hbit2.
    replace (parent + 1 + 1) with (parent + 2) by lia.
    by destruct (db ds !! (parent + 2)).
Qed.

End Properties.

(** * The properties on the concrete world *)

Import Fixture.

(** The stalled chain of [queue k]: the first [k] refills each find their
    source exhausted, whatever the trace so far. *)
Lemma stalled_queue_run (k : nat) :
  ∀ (m j : nat) (t : list Event), (j + m = k)%nat →
    ∃ t', exhausted_run (source_impl := sources) m (queue k)
            {| world := j; trace := t |} (queue k) {| world := k; trace := t' |}.
Proof.
  induction m as [|m IH]; intros j t Hj.
  - replace j with k by lia. exists t. constructor.
  - destruct (IH (S j) (t ++ [EvOpenDataSource 1] ++ [EvGetFinalizedBlockNumber])
                ltac:(lia)) as [t' Hrun].
    exists t'.
    eapply (exhausted_run_S (source_impl := sources)).
    + simpl. eexists. split; reflexivity.
    + simpl. erewrite NextData_exhausted; [reflexivity|reflexivity|].
      simpl. unfold stalled. replace (j <? k)%nat with true; [done|].
      symmetry. apply Nat.ltb_lt. lia.
    + simpl. rewrite <- app_assoc. exact Hrun.
Qed.

(** After [k] queries the chain has moved on and the refill succeeds in
    one activation. *)
Lemma stalled_queue_last (k : nat) (t : list Event) :
  ∃ dq' s', getNextData (source_impl := sources) 1 (queue k)
              {| world := k; trace := t |} = (Ok (), dq', s', 1%nat).
Proof.
  eexists _, _. simpl. unfold NextData, call. simpl.
  unfold stalled. rewrite Nat.ltb_irrefl.
  change (rangeEnd 1 1000) with 501. simpl. reflexivity.
Qed.

Lemma stalled_queue_depth (k : nat) :
  ∃ dq' s', getNextData (source_impl := sources) (k + 1) (queue k) start
            = (Ok (), dq', s', (k + 1)%nat).
Proof.
  destruct (stalled_queue_run k k O [] ltac:(lia)) as [t' Hrun].
  destruct (stalled_queue_last k t') as (dq' & s' & Hlast).
  exists dq', s'. by eapply getNextData_after_exhausted_run.
Qed.

(** C1, on the batch of the fixture: parent total 10, two slots, slot 0
    skipped, messages stored at 10, 11 and 12. Version 0 attaches message
    11; versions 1 and 2 attach messages 11 and 12. *)
Lemma walkV1_reads_past_the_window_witness :
  let vLog := commitLog 5 [] 100 7 in
  (decodeDAV0 (codec_lib := codec) quiet 5 vLog (args 0) start).1
    = Ok (NewCommitBatchDaV0 0 5 10 [x01] (map decode_chunk [[x02]])
            [message 11] 100) ∧
  (decodeDAV1 (codec_lib := codec) 2 quiet 5 vLog (args 1) start).1
    = Ok (NewCommitBatchDaV1 1 5 10 [x01]
            (map (fill_from_blob [x07]) (map decode_chunk [[x02]]))
            [message 11; message 12] 100) ∧
  (decodeDAV2 (codec_lib := codec) 2 quiet 5 vLog (args 2) start).1
    = Ok (NewCommitBatchDaV2 2 5 10 [x01]
            (map (fill_from_blob [x07]) (map decode_chunk [[x02]]))
            [message 11; message 12] 100) ∧
  non_skipped (codec_lib := codec) [true; false] 10 2 = [10 + 1] ∧
  (walkV0 (codec_lib := codec) quiet [true; false] 10 2 10 [] start).1
    = Ok [message 11] ∧
  (walkV1 (codec_lib := codec) quiet [true; false] 10 2 2 10 [] start).1
    = Ok [message 11; message 12].
Proof.
  intros vLog.
  split; [vm_compute; reflexivity|].
  split; [vm_compute; reflexivity|].
  split; [vm_compute; reflexivity|].
  apply (walkV1_reads_past_the_window (codec_lib := codec) 0 quiet
           [true; false] 10 (message 11) start);
    [lia | lia | reflexivity | reflexivity | reflexivity | reflexivity].
Defined.

(** C2, on a transaction whose versioned hash is 8 while the stored blob
    hashes to 9. *)
Lemma blob_hash_checked_before_decoding_witness :
  let vLog := commitLog 5 [] 100 8 in
  kzg4844_CalcBlobHashV1 (Codec := codec) [x09] = 9 ∧
  decodeDAV1 (codec_lib := codec) 2 quiet 5 vLog (args 1) start
    = (Err (ErrBlobHashMismatch 8 9),
       {| world := O;
          trace := [EvFetchTxBlobHash vLog; EvGetBlobByVersionedHash 8] |}) ∧
  decodeDAV2 (codec_lib := codec) 2 quiet 5 vLog (args 2) start
    = (Err (ErrBlobHashMismatch 8 9),
       {| world := O;
          trace := [EvFetchTxBlobHash vLog; EvGetBlobByVersionedHash 8] |}).
Proof.
  intros vLog. split; [reflexivity|].
  pose proof (blob_hash_checked_before_decoding (codec_lib := codec) 2 quiet 5
                vLog (args 1) start 8 O [x09] O [x09] eq_refl eq_refl) as [H1 _].
  pose proof (blob_hash_checked_before_decoding (codec_lib := codec) 2 quiet 5
                vLog (args 2) start 8 O [x09] O [x09] eq_refl eq_refl) as [H2 _].
  destruct (H1 eq_refl) as (_ & _ & Hm1).
  destruct (H2 eq_refl) as (_ & _ & Hm2).
  split.
  - refine (proj1 (Hm1 _) _ eq_refl). vm_compute. discriminate.
  - refine (proj2 (Hm2 _) _ eq_refl). vm_compute. discriminate.
Defined.


(** C4, on a source whose cursor 1001 is above the finalized height. *)
Lemma NextData_range_end_and_exhaustion_witness :
  let ds := source 1001 (λ _, 1000) (λ _ _, []) blobs messages in
  uint64 1000 < l1height ds ∧
  NextData (codec_lib := codec) 0 ds start
    = (Err sourceExhaustedErr, ds,
       {| world := 1%nat; trace := [EvGetFinalizedBlockNumber] |}).
Proof.
  intros ds. split; [vm_compute; reflexivity|].
  pose proof (NextData_range_end_and_exhaustion (codec_lib := codec) 0 ds start
                1000 1%nat eq_refl) as (_ & _ & Hex & _).
  apply Hex. vm_compute. reflexivity.
Defined.

(** C4 as stated fails: from cursor 0 under finalized height 1000 the
    step fetches the range that ends at 500 and moves the cursor to 501,
    where [min(cursor + WINDOW - 1, finalizedHeight)] is 499. *)
Lemma range_end_is_cursor_plus_window :
  ∃ da ds' s',
    NextData (codec_lib := codec) 0 busy start = (Ok da, ds', s') ∧
    l1height busy = 0 ∧
    EvFetchRollupEventsInRange 0 500 ∈ trace s' ∧
    l1height ds' = 500 + 1 ∧
    Z.min (l1height busy + callDataBlobSourceFetchBlockRange - 1) 1000 = 499.
Proof.
  eexists _, _, _. split; [vm_compute; reflexivity|].
  split; [reflexivity|]. split; [|split; reflexivity].
  simpl. apply list_elem_of_In. simpl. tauto.
Qed.

(** C5, on two calls with version field 7: the plain call fails with the
    unknown-version error, the call with blob proof goes to
    [decodeDAV2]. *)
Lemma commit_call_decoded_by_method_then_version_witness :
  let plain := commitLog 5 (calldata x01 x07) 100 7 in
  let proof := commitLog 5 (calldata x02 x07) 100 7 in
  getCommitBatchDa (codec_lib := codec) 2 quiet 5 plain start
    = (Err (ErrUnknownCodecVersion 7),
       {| world := O; trace := [EvFetchTxData plain] |}) ∧
  getCommitBatchDa (codec_lib := codec) 2 quiet 5 proof start
    = decodeDAV2 (codec_lib := codec) 2 quiet 5 proof (args 7)
        {| world := O; trace := [EvFetchTxData proof] |}.
Proof.
  intros plain proof. split.
  - refine (proj1 (commit_call_decoded_by_method_then_version (codec_lib := codec)
              2 quiet 5 plain start (calldata x01 x07) O false
              {| bp_Version := 7; bp_ParentBatchHeader := header10;
                 bp_ParentBatchHeaderSpare := [x01; x02];
                 bp_Chunks := [[x02]]; bp_SkippedL1MessageBitmap := [x01];
                 bp_BlobDataProof := [] |} _ eq_refl _ eq_refl eq_refl)
              eq_refl (args 7) eq_refl).
    + discriminate.
    + vm_compute. discriminate.
  - refine (proj2 (commit_call_decoded_by_method_then_version (codec_lib := codec)
              2 quiet 5 proof start (calldata x02 x07) O true
              {| bp_Version := 7; bp_ParentBatchHeader := header10;
                 bp_ParentBatchHeaderSpare := [x01; x02];
                 bp_Chunks := [[x02]]; bp_SkippedL1MessageBitmap := [x01];
                 bp_BlobDataProof := [] |} _ eq_refl _ eq_refl eq_refl)
              _ _ eq_refl).
    + discriminate.
    + vm_compute. discriminate.
    + vm_compute. discriminate.
Defined.

(** C5 as stated fails: a call with blob proof whose version field is 7
    is decoded into an entry; it does not fail with the unknown-version
    error. *)
Lemma blob_proof_call_skips_version_dispatch :
  let proof := commitLog 5 (calldata x02 x07) 100 7 in
  ∃ c s',
    getCommitBatchDa (codec_lib := codec) 2 quiet 5 proof start
      = (Ok (EntryCommit c), s') ∧
    cb_Version c = 7 ∧
    cb_DaType c = CommitBatchV2 ∧
    (getCommitBatchDa (codec_lib := codec) 2 quiet 5 proof start).1
      ≠ Err (ErrUnknownCodecVersion 7).
Proof.
  eexists _, _. split; [vm_compute; reflexivity|].
  split; [reflexivity|]. split; [reflexivity|]. vm_compute. discriminate.
Qed.

(** C7, on a range with a genesis commit, a revert, a version-0 commit and
    a finalize. *)
Lemma processLogsToDA_one_entry_per_log_in_order_witness :
  ∃ da s',
    processLogsToDA (codec_lib := codec) 0 busy interleaved start = (Ok da, s') ∧
    length da = length interleaved ∧
    DAType_of <$> da = [CommitBatchV0; RevertBatch; CommitBatchV0; FinalizeBatch] ∧
    BatchIndex_of <$> da = [0; 4; 5; 3] ∧
    Forall2 (produced_by busy) interleaved da.
Proof.
  eexists _, _. split; [vm_compute; reflexivity|].
  match goal with
  | |- context [Forall2 _ _ ?da] =>
      pose proof (processLogsToDA_one_entry_per_log_in_order (codec_lib := codec)
                    0 busy interleaved da start _ ltac:(vm_compute; reflexivity))
        as (Hlen & Hall & _)
  end.
  split; [exact Hlen|]. split; [reflexivity|]. split; [reflexivity|]. exact Hall.
Defined.

(** C8, on the queue whose chain stalls for two queries: the refill
    returns after three nested activations. *)
Lemma exhausted_refill_retries_by_nested_call_witness :
  ∃ dq' s', getNextData (source_impl := sources) (2 + 1) (queue 2) start
            = (Ok (), dq', s', (2 + 1)%nat).
Proof.
  eexists _, _.
  eapply (exhausted_refill_retries_by_nested_call (source_impl := sources) 2 1).
  - eapply (exhausted_run_S (source_impl := sources));
      [simpl; eexists; split; reflexivity | vm_compute; reflexivity |].
    eapply (exhausted_run_S (source_impl := sources));
      [simpl; eexists; split; reflexivity | vm_compute; reflexivity |].
    apply exhausted_run_O.
  - vm_compute. reflexivity.
Defined.

(** C8 as stated fails: no bound holds for the stack depth of a refill.
    On the chain that stalls for [k] queries the refill reaches depth
    [k + 1]. *)
Lemma refill_stack_depth_is_unbounded :
  ¬ ∃ bound : nat, ∀ (k fuel : nat) r dq' s' (frames : nat),
      getNextData (source_impl := sources) fuel (queue k) start
        = (r, dq', s', frames) →
      (frames ≤ bound)%nat.
Proof.
  intros [bound Hbound].
  destruct (stalled_queue_depth bound) as (dq' & s' & Hdepth).
  apply Hbound in Hdepth. lia.
Qed.

(** C9, on a revert log of block 100. *)
Lemma revert_finalize_block_number_is_zero_witness :
  BlockNumber (revertLog 4 100) = 100 ∧
  ∃ e, processLogsToDA (codec_lib := codec) 0 quiet [revertLog 4 100] start
         = (Ok [e], start) ∧
       BatchIndex_of e = 4 ∧
       GetL1BlockNumber e = 0.
Proof.
  split; [reflexivity|].
  apply (revert_finalize_block_number_is_zero (codec_lib := codec) 0 quiet
           (revertLog 4 100) 102 [4] 4 start).
  - reflexivity.
  - vm_compute. discriminate.
  - left. reflexivity.
  - intros name. reflexivity.
Defined.

(** C10, on a version-0 call whose parent batch header has 24 bytes, the
    last of them [0a]: without spare bytes the decode panics; with the
    bytes [00 02] behind the header it returns an entry whose parent total
    is 2560, read from the last seven bytes of the header and the first
    spare byte. *)
Lemma short_parent_header_is_not_an_error_witness :
  let vLog := commitLog 5 [] 100 7 in
  let short spare := {| Version := 0;
                        ParentBatchHeader := repeat x00 23 ++ [x0a];
                        ParentBatchHeaderSpare := spare;
                        Chunks := [[x02]];
                        SkippedL1MessageBitmap := [x00] |} in
  decodeDAV0 (codec_lib := codec) quiet 5 vLog (short []) start
    = (Panic "slice bounds out of range", start) ∧
  getBatchTotalL1MessagePopped (repeat x00 23 ++ [x0a]) [x00; x02] = Some 2560 ∧
  decodeDAV0 (codec_lib := codec) quiet 5 vLog (short [x00; x02]) start
    = decodeDAV0 (codec_lib := codec) quiet 5 vLog
        {| Version := 0;
           ParentBatchHeader := (repeat x00 23 ++ [x0a]) ++ [x00; x02];
           ParentBatchHeaderSpare := [];
           Chunks := [[x02]];
           SkippedL1MessageBitmap := [x00] |} start.
Proof.
  intros vLog short.
  destruct (short_parent_header_is_not_an_error (codec_lib := codec) quiet 5 vLog
              (short []) (map decode_chunk [[x02]]) start) as [Hpanic _];
    [simpl; lia | reflexivity |].
  destruct (short_parent_header_is_not_an_error (codec_lib := codec) quiet 5 vLog
              (short [x00; x02]) (map decode_chunk [[x02]]) start) as [_ Hread];
    [simpl; lia | reflexivity |].
  split; [apply Hpanic; simpl; lia|].
  destruct Hread as [Hvalue Hsame]; [simpl; lia|].
  split; [exact Hvalue | exact Hsame].
Defined.

(** * Further properties of the code *)

Section MoreProperties.

Context {World : Type} {codec_lib : Codec}.

Implicit Types (s : State (World := World)) (ds : CalldataBlobSource (World := World)).

Ltac monad_inv :=
  repeat match goal with
  | H : mbind _ _ _ = (Ok _, _) |- _ =>
      let a := fresh "a" in let s1 := fresh "s" in let Hm := fresh "Hm" in
      apply bind_Ok_inv in H as (a & s1 & Hm & H)
  | H : wrap_err _ _ _ = (Ok _, _) |- _ => apply wrap_err_Ok_inv in H
  | H : lift _ _ = (Ok _, _) |- _ =>
      let Hr := fresh "Hr" in apply lift_Ok_inv in H as [Hr ->]
  | H : mret _ _ = (Ok _, _) |- _ => injection H as <- <-
  | H : fail _ _ = (Ok _, _) |- _ => discriminate H
  | H : panic _ _ = (Ok _, _) |- _ => discriminate H
  | H : out_of_fuel _ = (Ok _, _) |- _ => discriminate H
  end.

(** ** The dispatcher over a range of logs *)

(** The entries built so far are only ever extended. *)
Lemma processLogs_acc (fuel : nat) ds (logs : list Log) (da : DA) s :
  processLogs fuel ds logs da s =
    ((outcome_map (λ new, da ++ new) (processLogs fuel ds logs [] s).1),
     (processLogs fuel ds logs [] s).2).
Proof.
  revert da s. induction logs as [|vLog logs IH]; intros da s; simpl.
  { unfold mret, M_ret. simpl. by rewrite app_nil_r. }
  destruct (Topics vLog) as [|topic rest]; [done|].
  repeat case_decide; try done; unfold mbind, M_bind;
    repeat match goal with
    | |- context [wrap_err ?g ?m ?st] =>
        destruct (wrap_err g m st) as [[?| | |] ?]; try done
    end;
    rewrite (IH (da ++ _)), (IH [_]); simpl;
    destruct (processLogs fuel ds logs [] _) as [[?| | |] ?]; simpl; try done;
    by rewrite <- app_assoc.
Qed.

(** The loop over [l1 ++ l2] is the loop over [l1] followed by the loop
    over [l2]. *)
Lemma processLogs_app (fuel : nat) ds (l1 l2 : list Log) (da : DA) s :
  processLogs fuel ds (l1 ++ l2) da s =
    (processLogs fuel ds l1 da ≫= processLogs fuel ds l2) s.
Proof.
  revert da s. induction l1 as [|vLog l1 IH]; intros da s; simpl.
  { done. }
  destruct (Topics vLog) as [|topic rest]; [done|].
  repeat case_decide; try done; unfold mbind, M_bind;
    repeat match goal with
    | |- context [wrap_err ?g ?m ?st] =>
        destruct (wrap_err g m st) as [[?| | |] ?]; try done
    end;
    by rewrite IH.
Qed.

(** X1. Decoding the logs [l1 ++ l2] is decoding [l1] and then, from the
    state that leaves, [l2]: if [l1] decodes to [da1], the result is that
    of [l2] with [da1] put in front of its entries; if [l1] fails, the
    result is that failure and [l2] is not looked at. *)
Theorem processLogsToDA_app (fuel : nat) ds (l1 l2 : list Log) s
    (r1 : outcome DA) s1 :
  processLogsToDA fuel ds l1 s = (r1, s1) →
  processLogsToDA fuel ds (l1 ++ l2) s =
    match r1 with
    | Ok da1 =>
        (outcome_map (λ da2, da1 ++ da2) (processLogsToDA fuel ds l2 s1).1,
         (processLogsToDA fuel ds l2 s1).2)
    | _ => (r1, s1)
    end.
Proof.
  unfold processLogsToDA. intros H1. rewrite processLogs_app.
  unfold mbind, M_bind. rewrite H1.
  destruct r1 as [da1| | |]; try done.
  by rewrite processLogs_acc.
Qed.

(** X2. A log whose first topic is none of the three event signatures
    fails the whole range with the error naming that topic and the
    transaction hash of the log; the entries of the logs before it are
    dropped, the logs after it are not looked at, and the state is the one
    the logs before it left. *)
Theorem processLogsToDA_unknown_topic (fuel : nat) ds (pre post : list Log)
    (vLog : Log) (topic : Hash) (rest : list Hash) (da : DA) s s1 :
  processLogsToDA fuel ds pre s = (Ok da, s1) →
  Topics vLog = topic :: rest →
  topic ≠ l1CommitBatchEventSignature ds →
  topic ≠ l1RevertBatchEventSignature ds →
  topic ≠ l1FinalizeBatchEventSignature ds →
  processLogsToDA fuel ds (pre ++ vLog :: post) s =
    (Err (ErrUnknownEvent topic (TxHash vLog)), s1).
Proof.
  unfold processLogsToDA. intros Hpre Htopics Hc Hr Hf.
  rewrite processLogs_app. unfold mbind, M_bind. rewrite Hpre.
  simpl. rewrite Htopics. by rewrite !decide_False by done.
Qed.

(** X3. A log without topics makes the dispatcher panic on
    [vLog.Topics[0]] once the logs before it are decoded. *)
Theorem processLogsToDA_no_topics_panics (fuel : nat) ds (pre post : list Log)
    (vLog : Log) (da : DA) s s1 :
  processLogsToDA fuel ds pre s = (Ok da, s1) →
  Topics vLog = [] →
  processLogsToDA fuel ds (pre ++ vLog :: post) s =
    (Panic "index out of range", s1).
Proof.
  unfold processLogsToDA. intros Hpre Htopics.
  rewrite processLogs_app. unfold mbind, M_bind. rewrite Hpre.
  simpl. by rewrite Htopics.
Qed.

Lemma processLogs_no_commit_state (fuel : nat) ds (logs : list Log) (da : DA) s :
  Forall (λ vLog, head (Topics vLog) ≠ Some (l1CommitBatchEventSignature ds)) logs →
  (processLogs fuel ds logs da s).2 = s.
Proof.
  intros Hlogs. revert da. induction Hlogs as [|vLog logs Hv _ IH]; intros da; simpl.
  { done. }
  destruct (Topics vLog) as [|topic rest]; [done|]. simpl in Hv.
  rewrite decide_False by congruence.
  repeat case_decide; try done; unfold mbind, M_bind, wrap_err, lift;
    destruct (UnpackLog _ _ _); simpl; try done; apply IH.
Qed.

(** X4. A range in which no log has the commit signature as first topic
    is decoded without any call to a collaborator: whatever the outcome,
    the world and the trace are what they were. *)
Theorem processLogsToDA_without_commit_makes_no_call (fuel : nat) ds
    (logs : list Log) s :
  Forall (λ vLog, head (Topics vLog) ≠ Some (l1CommitBatchEventSignature ds)) logs →
  (processLogsToDA fuel ds logs s).2 = s.
Proof. apply processLogs_no_commit_state. Qed.

(** ** Commit entries *)

Lemma read_parent_total_Ok (args : commitBatchArgs) s (v : Z) s' :
  read_parent_total args s = (Ok v, s') →
  getBatchTotalL1MessagePopped (ParentBatchHeader args)
    (ParentBatchHeaderSpare args) = Some v ∧
  0 ≤ v < 2 ^ 64 ∧ s' = s.
Proof.
  unfold read_parent_total.
  destruct (getBatchTotalL1MessagePopped _ _) as [v'|] eqn:Hread; [|done].
  intros [= <- <-]. split; [done|]. split; [|done].
  by eapply getBatchTotalL1MessagePopped_range.
Qed.

(** X6. An entry returned by [getCommitBatchDa] for a batch index other
    than 0 is a commit entry with that batch index and the block number of
    the log; its parent total was read from the header and fits 64 bits;
    the tag [CommitBatchV0] comes with version 0 and the tag
    [CommitBatchV1] with version 1, every other entry has the tag
    [CommitBatchV2]. *)
Theorem commit_entry_records_its_log_and_call (fuel : nat) ds (batchIndex : Z)
    (vLog : Log) (e : DAEntry) s s' :
  batchIndex ≠ 0 →
  getCommitBatchDa fuel ds batchIndex vLog s = (Ok e, s') →
  ∃ c, e = EntryCommit c ∧
       cb_BatchIndex c = batchIndex ∧
       cb_L1BlockNumber c = BlockNumber vLog ∧
       0 ≤ cb_ParentTotalL1MessagePopped c < 2 ^ 64 ∧
       (cb_DaType c = CommitBatchV0 ∧ cb_Version c = 0 ∨
        cb_DaType c = CommitBatchV1 ∧ cb_Version c = 1 ∨
        cb_DaType c = CommitBatchV2).
Proof.
  intros Hnz. unfold getCommitBatchDa. rewrite decide_False by done.
  intros Hd. monad_inv. case_decide; [discriminate|].
  monad_inv. case_decide; monad_inv.
  - destruct (Version a2) as [|[[]|[]|]|] eqn:Hv; try discriminate;
      first [progress unfold decodeDAV0 in Hd
            |progress unfold decodeDAV1 in Hd
            |progress unfold decodeDAV2 in Hd];
      monad_inv;
      match goal with H : read_parent_total _ _ = _ |- _ =>
        apply read_parent_total_Ok in H as (_ & Hrange & _) end;
      (eexists; split; [reflexivity|]); simpl; rewrite ?Hv; eauto 10.
  - unfold decodeDAV2 in Hd. monad_inv.
    match goal with H : read_parent_total _ _ = _ |- _ =>
      apply read_parent_total_Ok in H as (_ & Hrange & _) end.
    eexists. split; [reflexivity|]. simpl. eauto 10.
Qed.

(** X7. On a header made of 17 bytes, 8 bytes and any further bytes, the
    parent total is the number spelled by the 8 bytes, most significant
    first, whatever the other bytes are; it fits 64 bits. *)
Theorem header_field_is_bytes_17_to_24 (pre field post spare : bytes) :
  length pre = 17%nat →
  length field = 8%nat →
  getBatchTotalL1MessagePopped (pre ++ field ++ post) spare
    = Some (be_value field) ∧
  0 ≤ be_value field < 2 ^ 64.
Proof.
  intros Hpre Hfield.
  destruct (getBatchTotalL1MessagePopped_long (pre ++ field ++ post) spare)
    as (v & -> & Hv & Hrange).
  { rewrite !length_app. lia. }
  rewrite drop_app_length' in Hv by done.
  rewrite take_app_length' in Hv by done. by subst v.
Qed.

(** ** The message walks *)

(** The walk of version 0 only reads the message store. *)
Lemma walkV0_trace ds (skippedBitmap : Bitmap) (parent : Z) (n : nat)
    (currentIndex : Z) (l1Txs : list L1MessageTx) s :
  ∃ indices,
    (walkV0 ds skippedBitmap parent n currentIndex l1Txs s).2 =
      {| world := world s;
         trace := trace s ++ (EvReadL1Message <$> indices) |} ∧
    (length indices ≤ n)%nat.
Proof.
  revert currentIndex l1Txs s.
  induction n as [|n IH]; intros currentIndex l1Txs s; cbn [walkV0].
  { exists []. destruct s. simpl. by rewrite app_nil_r. }
  destruct (encoding_IsL1MessageSkipped _ _).
  { destruct (IH (uint64 (currentIndex + 1)) l1Txs s) as (idx & -> & Hlen).
    exists idx. split; [done|lia]. }
  unfold mbind, M_bind, ReadL1Message.
  destruct (db ds !! currentIndex) as [l1Tx|].
  - match goal with |- context [walkV0 _ _ _ _ ?c ?l ?st] =>
      destruct (IH c l st) as (idx & -> & Hlen) end.
    exists (currentIndex :: idx). simpl. rewrite <- app_assoc.
    split; [done|lia].
  - exists [currentIndex]. simpl. split; [done|lia].
Qed.

(** X10. [decodeDAV0] never calls the L1 client or the blob client: for
    every input and outcome the world is unchanged and the trace is
    extended by reads of the message store only. *)
Theorem decodeDAV0_reads_the_store_only ds (batchIndex : Z) (vLog : Log)
    (args : commitBatchArgs) s :
  ∃ indices,
    (decodeDAV0 ds batchIndex vLog args s).2 =
      {| world := world s;
         trace := trace s ++ (EvReadL1Message <$> indices) |}.
Proof.
  assert (Hsame : s = {| world := world s; trace := trace s ++ (EvReadL1Message <$> []) |}).
  { destruct s. simpl. by rewrite app_nil_r. }
  unfold decodeDAV0, mbind, M_bind, wrap_err, lift, read_parent_total.
  destruct (codecv0_DecodeDAChunksRawTx _); simpl; [|by exists []].
  destruct (getBatchTotalL1MessagePopped _ _); simpl; [|by exists []].
  destruct (encoding_DecodeBitmap _ _); simpl; [|by exists []].
  match goal with |- context [walkV0 ?d ?b ?p ?n ?c ?l ?st] =>
    destruct (walkV0_trace d b p n c l st) as (idx & Hst & _);
    destruct (walkV0 d b p n c l st) as [[?| | |] s']; simpl in *; subst s';
    by exists idx
  end.
Qed.

Lemma skipSet_Some (skippedBitmap : Bitmap) (parent : Z) (fuel : nat)
    (currentIndex index : Z) :
  skipSet skippedBitmap parent fuel currentIndex = Some index →
  encoding_IsL1MessageSkipped skippedBitmap (uint64 (index - parent)) = false.
Proof.
  revert currentIndex. induction fuel as [|fuel IH]; intros currentIndex; simpl;
    [done|].
  destruct (encoding_IsL1MessageSkipped skippedBitmap
              (uint64 (currentIndex - parent))) eqn:Hbit; [apply IH|].
  by intros [= <-].
Qed.

Lemma walkV1_Ok ds (skippedBitmap : Bitmap) (parent : Z) (fuel n : nat)
    (currentIndex : Z) (l1Txs found : list L1MessageTx) s s' :
  walkV1 ds skippedBitmap parent fuel n currentIndex l1Txs s = (Ok found, s') →
  ∃ indices new,
    found = l1Txs ++ new ∧
    length indices = n ∧
    Forall2 (λ index l1Tx,
               db ds !! index = Some l1Tx ∧
               encoding_IsL1MessageSkipped skippedBitmap (uint64 (index - parent))
                 = false) indices new ∧
    s' = {| world := world s; trace := trace s ++ (EvReadL1Message <$> indices) |}.
Proof.
  revert currentIndex l1Txs s.
  induction n as [|n IH]; intros currentIndex l1Txs s; cbn [walkV1].
  { intros [= <- <-]. exists [], []. rewrite !app_nil_r. by destruct s. }
  destruct (skipSet _ _ _ _) as [index|] eqn:Hskip; [|done].
  apply skipSet_Some in Hskip.
  unfold mbind, M_bind, ReadL1Message.
  destruct (db ds !! index) as [l1Tx|] eqn:Hmsg; [|done].
  intros Hwalk. apply IH in Hwalk as (indices & new & -> & <- & Hall & ->).
  exists (index :: indices), (l1Tx :: new). simpl.
  rewrite <- !app_assoc. repeat split; try done. by constructor.
Qed.

(** X11. An entry returned by [decodeDAV1] or [decodeDAV2] has exactly as
    many attached messages as its chunks count message slots, and each
    attached message is stored at an index whose skip bit is clear. *)
Theorem blob_versions_attach_one_message_per_counted_slot (fuel : nat) ds
    (batchIndex : Z) (vLog : Log) (args : commitBatchArgs) (e : DAEntry) s s' :
  decodeDAV1 fuel ds batchIndex vLog args s = (Ok e, s') ∨
  decodeDAV2 fuel ds batchIndex vLog args s = (Ok e, s') →
  ∃ c skippedBitmap indices,
    e = EntryCommit c ∧
    encoding_DecodeBitmap (cb_SkippedL1MessageBitmap c)
      (totalL1MessagePopped (cb_Chunks c)) = ROk skippedBitmap ∧
    length (cb_L1Txs c) = Z.to_nat (totalL1MessagePopped (cb_Chunks c)) ∧
    Forall2 (λ index l1Tx,
               db ds !! index = Some l1Tx ∧
               encoding_IsL1MessageSkipped skippedBitmap
                 (uint64 (index - cb_ParentTotalL1MessagePopped c)) = false)
            indices (cb_L1Txs c).
Proof.
  intros [Hd|Hd]; [unfold decodeDAV1 in Hd|unfold decodeDAV2 in Hd];
    monad_inv;
    match goal with H : walkV1 _ _ _ _ _ _ _ _ = _ |- _ =>
      apply walkV1_Ok in H as (indices & new & -> & Hlen & Hall & _) end;
    eexists _, _, indices;
    (split; [reflexivity|]); (split; [eassumption|]);
    (split; [|done]); cbn [cb_L1Txs cb_Chunks app];
    apply Forall2_length in Hall; congruence.
Qed.

(** X12. When no slot of the window is marked as skipped, the walk of
    versions 1 and 2 is the walk of version 0: same outcome, same reads.
    The two walks differ only on batches that skip messages. *)
Theorem walks_agree_without_skips (fuel : nat) ds (skippedBitmap : Bitmap)
    (parent : Z) (n : nat) (currentIndex : Z) (l1Txs : list L1MessageTx) s :
  0 ≤ parent ≤ currentIndex →
  currentIndex + Z.of_nat n ≤ 2 ^ 64 →
  (∀ index, currentIndex ≤ index < currentIndex + Z.of_nat n →
            encoding_IsL1MessageSkipped skippedBitmap (index - parent) = false) →
  walkV1 ds skippedBitmap parent (S fuel) n currentIndex l1Txs s =
    walkV0 ds skippedBitmap parent n currentIndex l1Txs s.
Proof.
  revert currentIndex l1Txs s.
  induction n as [|n IH]; intros currentIndex l1Txs s Hp Hfit Hclear; [done|].
  cbn [walkV1 walkV0 skipSet].
  rewrite (uint64_small (currentIndex - parent)) by lia.
  rewrite Hclear by lia.
  unfold mbind, M_bind, ReadL1Message.
  destruct (db ds !! currentIndex) as [l1Tx|]; [|done].
  destruct n as [|n]; [done|].
  rewrite (uint64_small (currentIndex + 1)) by lia.
  apply IH; [lia|lia|]. intros index Hindex. apply Hclear. lia.
Qed.

(** X13. [decodeDAV1] and [decodeDAV2] decode the structure of the chunks
    first: when that fails they return the error of the chunk decoder
    under the batch index, and no hash, blob or message has been
    fetched. *)
Theorem blob_versions_check_chunks_before_any_call (fuel : nat) ds
    (batchIndex : Z) (vLog : Log) (args : commitBatchArgs) s :
  (∀ e, codecv1_DecodeDAChunksRawTx (Chunks args) = RErr e →
        decodeDAV1 fuel ds batchIndex vLog args s
          = (Err (ErrUnpackChunks batchIndex e), s)) ∧
  (∀ e, codecv2_DecodeDAChunksRawTx (Chunks args) = RErr e →
        decodeDAV2 fuel ds batchIndex vLog args s
          = (Err (ErrUnpackChunks batchIndex e), s)).
Proof.
  split; intros e He; [unfold decodeDAV1|unfold decodeDAV2];
    eapply bind_Err; apply wrap_err_Err; unfold lift; by rewrite He.
Qed.

(** ** Steps of the source *)

(** X14. [NextData] returns the exhausted sentinel exactly when the
    finalized height was read and the cursor is above the end of the
    range; the source is then unchanged and the query is the only call
    made. No failure of a collaborator is ever reported as
    exhaustion. *)
Theorem NextData_exhausted_iff (fuel : nat) ds s ds' s' :
  NextData fuel ds s = (Err sourceExhaustedErr, ds', s') ↔
  ∃ fin w1,
    getFinalizedBlockNumber (l1Client ds) (world s) = (ROk fin, w1) ∧
    l1height ds > rangeEnd (l1height ds) fin ∧
    ds' = ds ∧
    s' = {| world := w1; trace := trace s ++ [EvGetFinalizedBlockNumber] |}.
Proof.
  split.
  - unfold NextData. intros Hn.
    destruct (call_cases EvGetFinalizedBlockNumber
                (getFinalizedBlockNumber (l1Client ds)) s)
      as (w1 & [(fin & Hfin & Hcall) | (e & _ & Hcall)]);
      rewrite Hcall in Hn; clear Hcall; [|discriminate].
    case_decide as Hgt.
    { injection Hn as <- <-. by exists fin, w1. }
    match type of Hn with context [call ?ev ?op ?st] =>
      destruct (call_cases ev op st)
        as (w2 & [(logs & Hlogs & Hcall) | (e & _ & Hcall)]);
        rewrite Hcall in Hn; clear Hcall
    end; [|discriminate].
    destruct (processLogsToDA _ _ _ _) as [[da|e|msg|] s3] eqn:Hproc;
      try discriminate.
    injection Hn as -> _ _. by apply processLogs_not_exhausted in Hproc.
  - intros (fin & w1 & Hfin & Hgt & -> & ->). unfold NextData.
    erewrite call_Ok by done. by rewrite decide_True by done.
Qed.

(** X15. A successful step from a cursor at least [WINDOW + 1] below the
    top of the 64-bit range moves the cursor forward by at most
    [WINDOW + 1] heights and never beyond the height after the finalized
    one. *)
Theorem NextData_success_stays_within_finalized (fuel : nat) ds s (da : DA) ds' s' :
  NextData fuel ds s = (Ok da, ds', s') →
  0 ≤ l1height ds →
  l1height ds + callDataBlobSourceFetchBlockRange < 2 ^ 64 - 1 →
  ∃ fin w1,
    getFinalizedBlockNumber (l1Client ds) (world s) = (ROk fin, w1) ∧
    l1height ds < l1height ds' ∧
    l1height ds' ≤ l1height ds + callDataBlobSourceFetchBlockRange + 1 ∧
    l1height ds' ≤ uint64 fin + 1.
Proof.
  intros Hn Hpos Hfit.
  destruct (NextData_inv _ _ _ _ _ _ Hn)
    as [(da' & fin & w1 & logs & w2 & _ & Hfin & Hle & _ & _ & ->)
       | [Hfail _]]; [|destruct Hfail; by eexists].
  exists fin, w1. split; [done|]. simpl.
  pose proof (rangeEnd_range (l1height ds) fin) as [Hrange Hmax].
  assert (Hwin : rangeEnd (l1height ds) fin
                 ≤ l1height ds + callDataBlobSourceFetchBlockRange).
  { rewrite rangeEnd_min. rewrite (uint64_small (l1height ds + _)).
    - lia.
    - unfold callDataBlobSourceFetchBlockRange in *. lia. }
  rewrite uint64_small by lia. lia.
Qed.

(** ** The package [da] *)

(** X20. When the blob client returns no blob and no error,
    [NewCommitBatchDAV1WithBlobDecodeFunc] fails with the error that names
    the batch index and the versioned hash; nothing is decoded from a
    blob. *)
Theorem nil_blob_is_an_error
    {CommitBatchDAV0 : Type}
    (NewCommitBatchDAV0WithChunks :
       gmap Z L1MessageTx → Z → Z → bytes → list DAChunkRawTx → bytes → Z →
       M (World := World) CommitBatchDAV0)
    (db : gmap Z L1MessageTx) (l1Client : L1Client) (blobClient : BlobClient)
    (vLog : Log) (version batchIndex : Z) (parentBatchHeader : bytes)
    (chunks : list bytes) (skippedL1MessageBitmap : bytes)
    decodeTxsFromBlobFunc s
    (decodedChunks : list DAChunkRawTx) (vh : Hash) (header : Header)
    (w1 w2 w3 : World) :
  codecv1_DecodeDAChunksRawTx chunks = ROk decodedChunks →
  fetchTxBlobHash l1Client vLog (world s) = (ROk vh, w1) →
  GetHeaderByNumber l1Client (BlockNumber vLog) w1 = (ROk header, w2) →
  GetBlobByVersionedHashAndBlockTime blobClient vh (Time header) w2
    = (ROk None, w3) →
  da.NewCommitBatchDAV1WithBlobDecodeFunc NewCommitBatchDAV0WithChunks
    db l1Client blobClient vLog version batchIndex parentBatchHeader chunks
    skippedL1MessageBitmap decodeTxsFromBlobFunc s
  = (Err (ErrBlobNil batchIndex vh),
     {| world := w3;
        trace := trace s ++
          [EvFetchTxBlobHash vLog;
           EvGetHeaderByNumber (BlockNumber vLog);
           EvGetBlobByVersionedHashAndBlockTime vh (Time header)] |}).
Proof.
  intros Hchunks Hh Hhd Hb. unfold da.NewCommitBatchDAV1WithBlobDecodeFunc.
  erewrite bind_Ok; last by eapply wrap_err_Ok, lift_Ok.
  erewrite bind_Ok; last by eapply wrap_err_Ok, call_Ok.
  erewrite bind_Ok; last by eapply wrap_err_Ok, call_Ok.
  erewrite bind_Ok; last by eapply wrap_err_Ok, call_Ok.
  unfold fail. simpl. by rewrite <- !app_assoc.
Qed.

(** X21. What [NewCommitBatchDAV1WithBlobDecodeFunc] returns wraps the
    version-0 entry built from the chunks as filled by its decode function
    from the fetched blob, with the block number of the log: the blob is
    the one the blob client returned for the versioned hash of the
    transaction and the time of the log's block, its recomputed hash
    equals that versioned hash, and the chunks are the structurally
    decoded chunks of the call. *)
Theorem commitV1_wraps_the_version_0_entry_of_the_filled_chunks
    {CommitBatchDAV0 : Type}
    (NewCommitBatchDAV0WithChunks :
       gmap Z L1MessageTx → Z → Z → bytes → list DAChunkRawTx → bytes → Z →
       M (World := World) CommitBatchDAV0)
    (db : gmap Z L1MessageTx) (l1Client : L1Client) (blobClient : BlobClient)
    (vLog : Log) (version batchIndex : Z) (parentBatchHeader : bytes)
    (chunks : list bytes) (skippedL1MessageBitmap : bytes)
    decodeTxsFromBlobFunc s (e : da.CommitBatchDAV1) s' :
  da.NewCommitBatchDAV1WithBlobDecodeFunc NewCommitBatchDAV0WithChunks
    db l1Client blobClient vLog version batchIndex parentBatchHeader chunks
    skippedL1MessageBitmap decodeTxsFromBlobFunc s = (Ok e, s') →
  ∃ decodedChunks vh w1 header w2 blob w3 c filled,
    codecv1_DecodeDAChunksRawTx chunks = ROk decodedChunks ∧
    fetchTxBlobHash l1Client vLog (world s) = (ROk vh, w1) ∧
    GetHeaderByNumber l1Client (BlockNumber vLog) w1 = (ROk header, w2) ∧
    GetBlobByVersionedHashAndBlockTime blobClient vh (Time header) w2
      = (ROk (Some blob), w3) ∧
    kzg4844_BlobToCommitment blob = ROk c ∧
    kzg4844_CalcBlobHashV1 c = vh ∧
    decodeTxsFromBlobFunc blob decodedChunks = ROk filled ∧
    NewCommitBatchDAV0WithChunks db version batchIndex parentBatchHeader filled
      skippedL1MessageBitmap (BlockNumber vLog)
      {| world := w3;
         trace := trace s ++
           [EvFetchTxBlobHash vLog;
            EvGetHeaderByNumber (BlockNumber vLog);
            EvGetBlobByVersionedHashAndBlockTime vh (Time header);
            EvDecodeTxsFromBlob blob] |}
      = (Ok (da.v0 e), s').
Proof.
  unfold da.NewCommitBatchDAV1WithBlobDecodeFunc. intros Hd. monad_inv.
  repeat match goal with
  | H : call _ _ _ = (Ok _, _) |- _ =>
      let w := fresh "w" in let Hw := fresh "Hw" in
      apply call_Ok_inv in H as (w & Hw & ->); simpl in Hw
  end.
  destruct a2 as [blob|]; [|discriminate]. monad_inv.
  case_decide as Hne; [discriminate|]. monad_inv.
  match goal with H : DecodeTxsFromBlob _ _ _ _ = _ |- _ =>
    unfold DecodeTxsFromBlob in H;
    destruct (decodeTxsFromBlobFunc blob a) as [filled|] eqn:Hfill;
      simpl in H; [|discriminate];
    injection H as <- <-
  end.
  match goal with H : NewCommitBatchDAV0WithChunks _ _ _ _ _ _ _ _ = _ |- _ =>
    simpl in H; rewrite <- !app_assoc in H; simpl in H
  end.
  simpl in *.
  exists a, a0, w1, a1, w0, blob, w, a2, filled.
  repeat split; done.
Qed.

(** ** The queue *)

Section QueueMore.

Context {Src : Type} {source_impl : DataSource (World := World) Src}.

Implicit Types (dq : DAQueue (World := World) (Src := Src)).

Lemma NextDA_buffered (fuel : nat) dq s (daEntry : DAEntry) (rest : DA) :
  dq_da dq = daEntry :: rest →
  NextDA fuel dq s =
    (Ok daEntry,
     {| dq_l1height := dq_l1height dq;
        dataSourceFactory := dataSourceFactory dq;
        dataSource := dataSource dq;
        dq_da := rest |}, s).
Proof. intros Hda. destruct fuel; simpl; by rewrite Hda. Qed.

(** X16. While entries are buffered, [NextDA] hands them out in the order
    of the buffer and touches neither the source nor the state: [k] calls
    return the first [k] entries and leave the rest. *)
Theorem NextDA_delivers_the_buffer_in_order (fuel k : nat) dq s :
  (k ≤ length (dq_da dq))%nat →
  drain fuel k dq s =
    (take k (dq_da dq),
     {| dq_l1height := dq_l1height dq;
        dataSourceFactory := dataSourceFactory dq;
        dataSource := dataSource dq;
        dq_da := drop k (dq_da dq) |}, s).
Proof.
  revert dq. induction k as [|k IH]; intros dq Hk; simpl.
  { by destruct dq. }
  destruct (dq_da dq) as [|daEntry rest] eqn:Hda; simpl in Hk; [lia|].
  erewrite NextDA_buffered by done.
  rewrite IH by (simpl; lia). done.
Qed.

Lemma getNextData_step_other (fuel : nat) dq s (src : Src) s1
    (r : outcome DA) (src' : Src) s2 :
  source_in_use dq s src s1 →
  DataSource_NextData src s1 = (r, src', s2) →
  (∀ da, r = Ok da →
     getNextData (S fuel) dq s =
       (Ok (),
        {| dq_l1height := dq_l1height dq;
           dataSourceFactory := dataSourceFactory dq;
           dataSource := Some src';
           dq_da := da |}, s2, 1%nat)) ∧
  (∀ e, r = Err e → e ≠ sourceExhaustedErr →
     getNextData (S fuel) dq s =
       (Err e,
        {| dq_l1height := dq_l1height dq;
           dataSourceFactory := dataSourceFactory dq;
           dataSource := Some src';
           dq_da := [] |}, s2, 1%nat)).
Proof.
  intros Huse Hnext. unfold source_in_use in Huse.
  split.
  - intros da ->. simpl. destruct (dataSource dq) as [open|].
    + destruct Huse as [-> ->]. by rewrite Hnext.
    + destruct Huse as (w & Hopen & ->). erewrite call_Ok by done.
      by rewrite Hnext.
  - intros e -> Hne. simpl. destruct (dataSource dq) as [open|].
    + destruct Huse as [-> ->]. rewrite Hnext. by destruct e.
    + destruct Huse as (w & Hopen & ->). erewrite call_Ok by done.
      rewrite Hnext. by destruct e.
Qed.

(** X17. A refill whose source is not exhausted runs in one activation and
    keeps the watermark and the (advanced) source: on success the buffer
    is the decoded range, on an error the buffer is empty and the error is
    returned. *)
Theorem refill_keeps_watermark_and_source (fuel : nat) dq s (src : Src) s1
    (r : outcome DA) (src' : Src) s2 :
  source_in_use dq s src s1 →
  DataSource_NextData src s1 = (r, src', s2) →
  (∀ da, r = Ok da →
     getNextData (S fuel) dq s =
       (Ok (),
        {| dq_l1height := dq_l1height dq;
           dataSourceFactory := dataSourceFactory dq;
           dataSource := Some src';
           dq_da := da |}, s2, 1%nat)) ∧
  (∀ e, r = Err e → e ≠ sourceExhaustedErr →
     getNextData (S fuel) dq s =
       (Err e,
        {| dq_l1height := dq_l1height dq;
           dataSourceFactory := dataSourceFactory dq;
           dataSource := Some src';
           dq_da := [] |}, s2, 1%nat)).
Proof. apply getNextData_step_other. Qed.

(** X18. [NextDA] on an empty buffer refills it: when the source returns a
    range with at least one entry, [NextDA] returns the first entry and
    buffers the others; when the source fails with an error other than
    exhaustion, [NextDA] returns that error. *)
Theorem NextDA_refills_an_empty_buffer (fuel : nat) dq s (src : Src) s1
    (r : outcome DA) (src' : Src) s2 :
  dq_da dq = [] →
  source_in_use dq s src s1 →
  DataSource_NextData src s1 = (r, src', s2) →
  (∀ daEntry rest, r = Ok (daEntry :: rest) →
     NextDA (S fuel) dq s =
       (Ok daEntry,
        {| dq_l1height := dq_l1height dq;
           dataSourceFactory := dataSourceFactory dq;
           dataSource := Some src';
           dq_da := rest |}, s2)) ∧
  (∀ e, r = Err e → e ≠ sourceExhaustedErr →
     NextDA (S fuel) dq s =
       (Err e,
        {| dq_l1height := dq_l1height dq;
           dataSourceFactory := dataSourceFactory dq;
           dataSource := Some src';
           dq_da := [] |}, s2)).
Proof.
  intros Hempty Huse Hnext.
  destruct (getNextData_step_other fuel dq s src s1 r src' s2 Huse Hnext)
    as [Hok Herr].
  split.
  - intros daEntry rest ->. cbn [NextDA]. rewrite Hempty.
    rewrite (Hok _ eq_refl). by erewrite NextDA_buffered by done.
  - intros e -> Hne. cbn [NextDA]. rewrite Hempty.
    by rewrite (Herr _ eq_refl Hne).
Qed.

End QueueMore.

(** X19. For a queue over [CalldataBlobSource] whose factory opens
    sources at the height it is given, refills that find their source
    exhausted leave the watermark where it was: exhaustion does not skip
    a height. *)
Theorem exhaustion_keeps_the_watermark (fuel k : nat)
    (dq dqk : DAQueue (World := World) (Src := CalldataBlobSource)) s sk :
  exhausted_run (source_impl := CalldataBlobSource_DataSource fuel) k dq s dqk sk →
  (∀ h w src w',
     OpenDataSource (dataSourceFactory dq) h w = (ROk src, w') → l1height src = h) →
  (∀ src, dataSource dq = Some src → l1height src = dq_l1height dq) →
  dq_l1height dqk = dq_l1height dq ∧
  dataSourceFactory dqk = dataSourceFactory dq.
Proof.
  induction 1 as [|k dq s src s1 src' s2 dqk sk Huse Hnext _ IH];
    intros Hfactory Hopen; [done|].
  assert (Hsrc : l1height src = dq_l1height dq).
  { unfold source_in_use in Huse. destruct (dataSource dq) as [open|].
    - destruct Huse as [-> _]. by apply Hopen.
    - destruct Huse as (w & Hw & _). by eapply Hfactory. }
  simpl in Hnext.
  destruct (NextData_inv _ _ _ _ _ _ Hnext)
    as [(da & ? & ? & ? & ? & ? & _) | [_ ->]]; [done|].
  destruct IH as [Hh Hf]; [done|done|].
  rewrite Hh, Hf. simpl. unfold L1Height. done.
Qed.

End MoreProperties.

(** ** The secure trie *)

Section SecureTrieProperties.

Context {lib : zktrie.ZkTrieLib}.

(** X22. Every operation of the secure trie that takes a key panics on a
    key that has neither 20 nor 32 bytes, before it reaches the trie. *)
Theorem keyed_operations_reject_other_key_lengths (t : zktrie.SecureTrie)
    (logs : list zktrie.LogLine) (key value : bytes) (acc : zktrie.StateAccount) :
  length key ≠ 20%nat →
  length key ≠ 32%nat →
  ∃ msg,
    zktrie.TryGet t logs key = zktrie.Panics msg ∧
    zktrie.Get t logs key = zktrie.Panics msg ∧
    zktrie.TryUpdate t logs key value = zktrie.Panics msg ∧
    zktrie.Update t logs key value = zktrie.Panics msg ∧
    zktrie.TryUpdateAccount t logs key acc = zktrie.Panics msg ∧
    zktrie.TryDelete t logs key = zktrie.Panics msg ∧
    zktrie.Delete t logs key = zktrie.Panics msg.
Proof.
  intros H20 H32. eexists.
  unfold zktrie.Get, zktrie.Update, zktrie.Delete, zktrie.TryGet,
    zktrie.TryUpdate, zktrie.TryUpdateAccount, zktrie.TryDelete,
    zktrie.sanityCheckByte32Key, len.
  rewrite decide_True by lia. done.
Qed.

(** X23. On a key of 20 or 32 bytes, [Get], [Update] and [Delete] never
    fail: [Get] returns what the trie returned and leaves the trie,
    [Update] writes the value as one 32-byte word under flag 1, [Delete]
    deletes, and an error of the trie is written to the log instead of
    being returned. *)
Theorem unchecked_operations_log_and_go_on (t : zktrie.SecureTrie)
    (logs : list zktrie.LogLine) (key value : bytes) :
  length key = 20%nat ∨ length key = 32%nat →
  let logged (err : option error) :=
    match err with
    | Some err => logs ++ [zktrie.LogError err]
    | None => logs
    end in
  zktrie.Get t logs key =
    zktrie.Returns (zktrie.itrie_TryGet (zktrie.trie t) key).1 t
      (logged (zktrie.itrie_TryGet (zktrie.trie t) key).2) ∧
  zktrie.Update t logs key value =
    (let r := zktrie.itrie_TryUpdate (zktrie.trie t) key 1
                [zktrie.NewByte32FromBytes value] in
     zktrie.Returns () {| zktrie.trie := r.2; zktrie.db := zktrie.db t |}
       (logged r.1)) ∧
  zktrie.Delete t logs key =
    (let r := zktrie.itrie_TryDelete (zktrie.trie t) key in
     zktrie.Returns () {| zktrie.trie := r.2; zktrie.db := zktrie.db t |}
       (logged r.1)).
Proof.
  intros Hlen logged.
  unfold zktrie.Get, zktrie.Update, zktrie.Delete, zktrie.TryGet,
    zktrie.TryUpdate, zktrie.TryDelete, zktrie.sanityCheckByte32Key, len.
  rewrite decide_False by lia.
  destruct (zktrie.itrie_TryGet _ _) as [res [e|]];
    destruct (zktrie.itrie_TryUpdate _ _ _ _) as [[e1|] t1];
    destruct (zktrie.itrie_TryDelete _ _) as [[e2|] t2]; done.
Qed.

End SecureTrieProperties.

(** * The further properties on the concrete world *)

(** X1, on a genesis commit and a revert followed by a finalize. *)
Lemma processLogsToDA_app_witness :
  let l1 := [commitLog 0 [] 3 1; revertLog 4 5] in
  let l2 := [finalizeLog 3 8] in
  processLogsToDA (codec_lib := codec) 0 quiet l1 start
    = (Ok [NewCommitBatchDaV0 0 0 0 [] [] [] 0; NewRevertBatchDA 4], start) ∧
  processLogsToDA (codec_lib := codec) 0 quiet (l1 ++ l2) start
    = (Ok [NewCommitBatchDaV0 0 0 0 [] [] [] 0; NewRevertBatchDA 4;
           NewFinalizeBatchDA 3], start).
Proof.
  intros l1 l2. split; [vm_compute; reflexivity|].
  refine (eq_trans
            (processLogsToDA_app (codec_lib := codec) 0 quiet l1 l2 start _ _ _) _).
  - vm_compute. reflexivity.
  - vm_compute. reflexivity.
Defined.

(** X2, on a log with the unknown topic 999 between a revert and a
    finalize. *)
Lemma processLogsToDA_unknown_topic_witness :
  let stray := {| Topics := [999; 4]; Data := []; BlockNumber := 6; TxHash := 77 |} in
  processLogsToDA (codec_lib := codec) 0 quiet
    ([revertLog 4 5] ++ stray :: [finalizeLog 3 8]) start
  = (Err (ErrUnknownEvent 999 77), start).
Proof.
  intros stray.
  apply (processLogsToDA_unknown_topic (codec_lib := codec) 0 quiet
           [revertLog 4 5] [finalizeLog 3 8] stray 999 [4]
           [NewRevertBatchDA 4] start start).
  - vm_compute. reflexivity.
  - reflexivity.
  - vm_compute. discriminate.
  - vm_compute. discriminate.
  - vm_compute. discriminate.
Defined.

(** X3, on a log without topics after a revert. *)
Lemma processLogsToDA_no_topics_panics_witness :
  let bare := {| Topics := []; Data := []; BlockNumber := 6; TxHash := 77 |} in
  processLogsToDA (codec_lib := codec) 0 quiet
    ([revertLog 4 5] ++ bare :: [finalizeLog 3 8]) start
  = (Panic "index out of range", start).
Proof.
  intros bare.
  apply (processLogsToDA_no_topics_panics (codec_lib := codec) 0 quiet
           [revertLog 4 5] [finalizeLog 3 8] bare [NewRevertBatchDA 4] start start).
  - vm_compute. reflexivity.
  - reflexivity.
Defined.

(** X4, on a revert and a finalize. *)
Lemma processLogsToDA_without_commit_makes_no_call_witness :
  (processLogsToDA (codec_lib := codec) 0 quiet
     [revertLog 4 5; finalizeLog 3 8] start).2 = start.
Proof.
  apply (processLogsToDA_without_commit_makes_no_call (codec_lib := codec) 0 quiet
           [revertLog 4 5; finalizeLog 3 8] start).
  repeat constructor; vm_compute; discriminate.
Defined.

(** X5, on call data of two bytes and on call data with an unknown
    selector. *)
Lemma getCommitBatchDa_bad_selector_witness :
  let short := commitLog 5 [x01; x00] 100 7 in
  let unknown := commitLog 5 [x09; x00; x00; x00; x00] 100 7 in
  getCommitBatchDa (codec_lib := codec) 0 quiet 5 short start
    = (Err (ErrTxDataTooShort 2),
       {| world := O; trace := [EvFetchTxData short] |}) ∧
  getCommitBatchDa (codec_lib := codec) 0 quiet 5 unknown start
    = (Err (ErrMethodById [x09; x00; x00; x00]
              (ExternalError "no method with id")),
       {| world := O; trace := [EvFetchTxData unknown] |}).
Proof.
  intros short unknown. split.
  - refine (proj1 (getCommitBatchDa_bad_selector (codec_lib := codec) 0 quiet 5
                     short start [x01; x00] O _ eq_refl) _).
    + discriminate.
    + vm_compute. reflexivity.
  - refine (proj2 (getCommitBatchDa_bad_selector (codec_lib := codec) 0 quiet 5
                     unknown start [x09; x00; x00; x00; x00] O _ eq_refl)
                  _ _ eq_refl).
    + discriminate.
    + vm_compute. discriminate.
Defined.

(** X6, on a version-0 call for batch 5 in a log of block 100. *)
Lemma commit_entry_records_its_log_and_call_witness :
  ∃ c, (getCommitBatchDa (codec_lib := codec) 0 quiet 5
          (commitLog 5 (calldata x01 x00) 100 7) start).1 = Ok (EntryCommit c) ∧
       cb_BatchIndex c = 5 ∧
       cb_L1BlockNumber c = 100 ∧
       0 ≤ cb_ParentTotalL1MessagePopped c < 2 ^ 64.
Proof.
  destruct (getCommitBatchDa (codec_lib := codec) 0 quiet 5
              (commitLog 5 (calldata x01 x00) 100 7) start) as [r s'] eqn:Hrun.
  assert (Hok : ∃ e, r = Ok e).
  { vm_compute in Hrun. injection Hrun as <- _. by eexists. }
  destruct Hok as [e ->].
  destruct (commit_entry_records_its_log_and_call (codec_lib := codec) 0 quiet 5
              (commitLog 5 (calldata x01 x00) 100 7) e start s'
              ltac:(discriminate) Hrun) as (c & -> & Hb & Hn & Hp & _).
  by exists c.
Defined.

(** X7, on the header of the fixture followed by a byte. *)
Lemma header_field_is_bytes_17_to_24_witness :
  getBatchTotalL1MessagePopped (header10 ++ [xff]) [x01] = Some 10.
Proof.
  exact (proj1 (header_field_is_bytes_17_to_24 (repeat x00 17)
                  [x00; x00; x00; x00; x00; x00; x00; x0a] [xff] [x01]
                  eq_refl eq_refl)).
Defined.

(** X8, on two chunks with blocks of 2, 3 and 1 messages. *)
Lemma totalL1MessagePopped_sum_witness :
  totalL1MessagePopped (map decode_chunk [[x02; x03]; [x01]]) = 6.
Proof.
  refine (eq_trans (totalL1MessagePopped_sum
                      (map decode_chunk [[x02; x03]; [x01]]) _ _) _).
  - repeat constructor; vm_compute; discriminate.
  - vm_compute. reflexivity.
  - reflexivity.
Defined.

(** X9, on the batch of the fixture. *)
Lemma decodeDAV0_attaches_window_witness :
  (decodeDAV0 (codec_lib := codec) quiet 5 (commitLog 5 [] 100 7) (args 0) start).1
  = Ok (NewCommitBatchDaV0 0 5 10 [x01] (map decode_chunk [[x02]])
          [message 11] 100).
Proof.
  refine (eq_trans
            (decodeDAV0_attaches_window (codec_lib := codec) quiet 5
               (commitLog 5 [] 100 7) (args 0) (map decode_chunk [[x02]]) 10
               (flat_map byte_bits [x01]) start eq_refl eq_refl eq_refl _ _) _).
  - lia.
  - vm_compute. discriminate.
  - vm_compute. reflexivity.
Defined.

(** X11, on the batch of the fixture decoded as version 1. *)
Lemma blob_versions_attach_one_message_per_counted_slot_witness :
  ∃ c, (decodeDAV1 (codec_lib := codec) 2 quiet 5 (commitLog 5 [] 100 7)
          (args 1) start).1 = Ok (EntryCommit c) ∧
       totalL1MessagePopped (cb_Chunks c) = 2 ∧
       length (cb_L1Txs c) = 2%nat.
Proof.
  destruct (decodeDAV1 (codec_lib := codec) 2 quiet 5 (commitLog 5 [] 100 7)
              (args 1) start) as [r s'] eqn:Hrun.
  assert (Hok : ∃ e, r = Ok e).
  { vm_compute in Hrun. injection Hrun as <- _. by eexists. }
  destruct Hok as [e ->].
  destruct (blob_versions_attach_one_message_per_counted_slot (codec_lib := codec)
              2 quiet 5 (commitLog 5 [] 100 7) (args 1) e start s' (or_introl Hrun))
    as (c & bm & indices & -> & _ & Hlen & _).
  exists c. split; [done|].
  vm_compute in Hrun. injection Hrun as <- _. split; reflexivity.
Defined.

(** X12, on a window of two slots, none skipped. *)
Lemma walks_agree_without_skips_witness :
  walkV1 (codec_lib := codec) quiet [false; false] 10 1 2 10 [] start
  = walkV0 (codec_lib := codec) quiet [false; false] 10 2 10 [] start.
Proof.
  apply (walks_agree_without_skips (codec_lib := codec) 0 quiet [false; false]
           10 2 10 [] start); [lia|lia|].
  intros index Hindex.
  assert (index = 10 ∨ index = 11) as [-> | ->] by lia; reflexivity.
Defined.

(** X13, on a batch with an empty chunk under the strict codec. *)
Lemma blob_versions_check_chunks_before_any_call_witness :
  let broken := {| Version := 1; ParentBatchHeader := header10;
                   ParentBatchHeaderSpare := [];
                   Chunks := [[]]; SkippedL1MessageBitmap := [x01] |} in
  decodeDAV1 (codec_lib := strict_codec) 2 quiet 5 (commitLog 5 [] 100 7) broken start
  = (Err (ErrUnpackChunks 5 (ExternalError "invalid chunk, length is less than 1")),
     start).
Proof.
  intros broken.
  exact (proj1 (blob_versions_check_chunks_before_any_call
                  (codec_lib := strict_codec) 2 quiet 5 (commitLog 5 [] 100 7)
                  broken start) _ eq_refl).
Defined.

(** X14, on a source whose cursor 1001 is above the finalized height. *)
Lemma NextData_exhausted_iff_witness :
  let ds := source 1001 (λ _, 1000) (λ _ _, []) blobs messages in
  NextData (codec_lib := codec) 0 ds start
  = (Err sourceExhaustedErr, ds,
     {| world := 1%nat; trace := [EvGetFinalizedBlockNumber] |}).
Proof.
  intros ds.
  apply (proj2 (NextData_exhausted_iff (codec_lib := codec) 0 ds start ds _)).
  exists 1000, 1%nat. split; [reflexivity|]. split; [vm_compute; reflexivity|].
  split; reflexivity.
Defined.

(** X15, on a step from cursor 0 under finalized height 1000. *)
Lemma NextData_success_stays_within_finalized_witness :
  ∃ da ds' s',
    NextData (codec_lib := codec) 0 busy start = (Ok da, ds', s') ∧
    l1height busy < l1height ds' ∧
    l1height ds' ≤ l1height busy + callDataBlobSourceFetchBlockRange + 1.
Proof.
  destruct (NextData (codec_lib := codec) 0 busy start) as [[r ds'] s'] eqn:Hrun.
  assert (Hok : ∃ da, r = Ok da).
  { vm_compute in Hrun. injection Hrun as <- _ _. by eexists. }
  destruct Hok as [da ->].
  destruct (NextData_success_stays_within_finalized (codec_lib := codec) 0 busy
              start da ds' s' Hrun)
    as (fin & w1 & _ & Hlt & Hwin & _).
  - vm_compute. discriminate.
  - vm_compute. reflexivity.
  - by exists da, ds', s'.
Defined.

(** X16, on a buffer of three entries. *)
Lemma NextDA_delivers_the_buffer_in_order_witness :
  (drain (source_impl := sources) 0 2 buffered start).1.1
  = [NewRevertBatchDA 4; NewFinalizeBatchDA 3].
Proof.
  rewrite (NextDA_delivers_the_buffer_in_order (source_impl := sources)
             0 2 buffered start).
  - reflexivity.
  - simpl. lia.
Defined.

(** X17, on a queue that opens a source on the chain of [busy]. *)
Lemma refill_keeps_watermark_and_source_witness :
  ∃ dq' s',
    getNextData (source_impl := sources) 1 (NewDAQueue 0 busy_factory) start
      = (Ok (), dq', s', 1%nat) ∧
    dq_l1height dq' = 0 ∧
    length (dq_da dq') = 4%nat.
Proof.
  destruct (NextData (codec_lib := codec) 0
              (source 0 (λ _, 1000) (λ _ _, interleaved) blobs messages)
              {| world := O; trace := [EvOpenDataSource 0] |})
    as [[r src'] s2] eqn:Hnext.
  assert (Hok : ∃ da, r = Ok da ∧ length da = 4%nat).
  { vm_compute in Hnext. injection Hnext as <- _ _. by eexists. }
  destruct Hok as (da & -> & Hlen).
  destruct (refill_keeps_watermark_and_source (source_impl := sources) 0
              (NewDAQueue 0 busy_factory) start _ _ _ _ _
              ltac:(simpl; eexists; split; reflexivity) Hnext) as [Hok _].
  eexists _, _. split; [exact (Hok da eq_refl)|]. split; [reflexivity|exact Hlen].
Defined.

(** X18, on the same queue, and on a queue whose open source cannot read
    the finalized height. *)
Lemma NextDA_refills_an_empty_buffer_witness :
  (∃ dq' s',
     NextDA (source_impl := sources) 1 (NewDAQueue 0 busy_factory) start
       = (Ok (NewCommitBatchDaV0 0 0 0 [] [] [] 0), dq', s') ∧
     length (dq_da dq') = 3%nat) ∧
  (∃ dq' s',
     NextDA (source_impl := sources) 1
       {| dq_l1height := 1; dataSourceFactory := busy_factory;
          dataSource := Some deaf; dq_da := [] |} start
       = (Err (ErrGetL1Height (ExternalError "timeout")), dq', s')).
Proof.
  split.
  - destruct (NextData (codec_lib := codec) 0
                (source 0 (λ _, 1000) (λ _ _, interleaved) blobs messages)
                {| world := O; trace := [EvOpenDataSource 0] |})
      as [[r src'] s2] eqn:Hnext.
    assert (Hok : ∃ rest, r = Ok (NewCommitBatchDaV0 0 0 0 [] [] [] 0 :: rest) ∧
                          length rest = 3%nat).
    { vm_compute in Hnext. injection Hnext as <- _ _. by eexists. }
    destruct Hok as (rest & -> & Hlen).
    destruct (NextDA_refills_an_empty_buffer (source_impl := sources) 0
                (NewDAQueue 0 busy_factory) start _ _ _ _ _ eq_refl
                ltac:(simpl; eexists; split; reflexivity) Hnext) as [Hok _].
    eexists _, _. split; [exact (Hok _ _ eq_refl)|exact Hlen].
  - eexists _, _.
    refine (proj2 (NextDA_refills_an_empty_buffer (source_impl := sources) 0
                     {| dq_l1height := 1; dataSourceFactory := busy_factory;
                        dataSource := Some deaf; dq_da := [] |}
                     start deaf start
                     (Err (ErrGetL1Height (ExternalError "timeout"))) deaf _
                     eq_refl _ _) _ eq_refl _).
    + simpl. split; reflexivity.
    + vm_compute. reflexivity.
    + discriminate.
Defined.

(** X19, on the queue whose chain stalls for two queries. *)
Lemma exhaustion_keeps_the_watermark_witness :
  ∃ dqk sk,
    exhausted_run (source_impl := CalldataBlobSource_DataSource (codec_lib := codec) 0) 2
      (queue 2) start dqk sk ∧
    dq_l1height dqk = 1.
Proof.
  eexists _, _. split.
  - eapply (exhausted_run_S (source_impl := CalldataBlobSource_DataSource (codec_lib := codec) 0));
      [simpl; eexists; split; reflexivity | vm_compute; reflexivity |].
    eapply (exhausted_run_S (source_impl := CalldataBlobSource_DataSource (codec_lib := codec) 0));
      [simpl; eexists; split; reflexivity | vm_compute; reflexivity |].
    apply exhausted_run_O.
  - refine (proj1 (exhaustion_keeps_the_watermark (codec_lib := codec) 0 2
                     (queue 2) _ start _ _ _ _)).
    + eapply (exhausted_run_S (source_impl := CalldataBlobSource_DataSource (codec_lib := codec) 0));
        [simpl; eexists; split; reflexivity | vm_compute; reflexivity |].
      eapply (exhausted_run_S (source_impl := CalldataBlobSource_DataSource (codec_lib := codec) 0));
        [simpl; eexists; split; reflexivity | vm_compute; reflexivity |].
      apply exhausted_run_O.
    + intros h w src w' [= <- _]. reflexivity.
    + intros src [=].
Defined.

(** X20, on a transaction whose versioned hash 99 has no blob. *)
Lemma nil_blob_is_an_error_witness :
  let vLog := commitLog 5 [] 100 99 in
  da.NewCommitBatchDAV1WithBlobDecodeFunc (H := codec) entry_of_chunks
    messages (l1 (λ _, 1000) (λ _ _, [])) (blobs_of blobs) vLog 1 5 header10
    [[x02]] [x01] (codecv1_DecodeTxsFromBlob (Codec := codec)) start
  = (Err (ErrBlobNil 5 99),
     {| world := O;
        trace := [EvFetchTxBlobHash vLog; EvGetHeaderByNumber 100;
                  EvGetBlobByVersionedHashAndBlockTime 99 1200] |}).
Proof.
  intros vLog.
  exact (nil_blob_is_an_error (codec_lib := codec) entry_of_chunks
           messages (l1 (λ _, 1000) (λ _ _, [])) (blobs_of blobs) vLog 1 5
           header10 [[x02]] [x01] (codecv1_DecodeTxsFromBlob (Codec := codec))
           start (map decode_chunk [[x02]]) 99 {| Time := 1200 |} O O O
           eq_refl eq_refl eq_refl eq_refl).
Defined.

(** X21, on a transaction whose blob hashes to its versioned hash 7. *)
Lemma commitV1_wraps_the_version_0_entry_of_the_filled_chunks_witness :
  ∃ e s',
    da.NewCommitBatchDAV1WithBlobDecodeFunc (H := codec) entry_of_chunks
      messages (l1 (λ _, 1000) (λ _ _, [])) (blobs_of blobs)
      (commitLog 5 [] 100 7) 1 5 header10 [[x02]] [x01]
      (codecv1_DecodeTxsFromBlob (Codec := codec)) start = (Ok e, s') ∧
    da.v0 e = (map (fill_from_blob [x07]) (map decode_chunk [[x02]]), 100).
Proof.
  destruct (da.NewCommitBatchDAV1WithBlobDecodeFunc (H := codec)
              entry_of_chunks messages (l1 (λ _, 1000) (λ _ _, []))
              (blobs_of blobs) (commitLog 5 [] 100 7) 1 5 header10 [[x02]] [x01]
              (codecv1_DecodeTxsFromBlob (Codec := codec)) start)
    as [r s'] eqn:Hrun.
  assert (Hok : ∃ e, r = Ok e ∧
                da.v0 e = (map (fill_from_blob [x07]) (map decode_chunk [[x02]]), 100)).
  { vm_compute in Hrun. injection Hrun as <- _. by eexists. }
  destruct Hok as (e & -> & He).
  destruct (commitV1_wraps_the_version_0_entry_of_the_filled_chunks
              (codec_lib := codec) entry_of_chunks _ _ _ _ _ _ _ _ _ _ _ _ _ Hrun)
    as (decoded & vh & w1 & header & w2 & blob & w3 & c & filled & _).
  by exists e, s'.
Defined.

(** X22, on a key of one byte. *)
Lemma keyed_operations_reject_other_key_lengths_witness :
  ∃ msg,
    zktrie.Get (lib := ZkFixture.lib) ZkFixture.empty [] [x01] = zktrie.Panics msg ∧
    zktrie.Update (lib := ZkFixture.lib) ZkFixture.empty [] [x01] [x07]
      = zktrie.Panics msg.
Proof.
  destruct (keyed_operations_reject_other_key_lengths (lib := ZkFixture.lib)
              ZkFixture.empty [] [x01] [x07] 0)
    as (msg & _ & Hget & _ & Hupdate & _); [simpl; lia | simpl; lia |].
  by exists msg.
Defined.

(** X23, on a key of 20 bytes that the trie does not hold. *)
Lemma unchecked_operations_log_and_go_on_witness :
  zktrie.Get (lib := ZkFixture.lib) ZkFixture.empty [] ZkFixture.key20
    = zktrie.Returns [] ZkFixture.empty
        [zktrie.LogError (ExternalError "key not found")] ∧
  zktrie.Delete (lib := ZkFixture.lib) ZkFixture.empty [] ZkFixture.key20
    = zktrie.Returns () ZkFixture.empty
        [zktrie.LogError (ExternalError "key not found")].
Proof.
  destruct (unchecked_operations_log_and_go_on (lib := ZkFixture.lib)
              ZkFixture.empty [] ZkFixture.key20 [x07])
    as (Hget & _ & Hdelete); [left; reflexivity|].
  split; [exact Hget|exact Hdelete].
Defined.
